(** * tegu_ha: high-availability failover controller for tegu

    A shallow embedding of [system/tegu_ha.py] (Python 2).  The script
    polls every tegu of the standby list, activates the local tegu when
    none is running and, when two are running, compares checkpoint
    timestamps to decide which one is shut down.

    The shell is the only way the script touches the outside world, so
    the embedding runs the script against an oracle that answers each
    shell invocation, and records what was run, logged and slept. *)

From Stdlib Require Import ZArith List String Ascii Bool Lia DecimalString.
Import ListNotations.

Open Scope string_scope.
Open Scope list_scope.
Open Scope Z_scope.

(** ** Python built-ins used by the script *)

Module Py.

(** The exceptions the script can meet. *)
Inductive exn : Type :=
| CalledProcessError
| IndexError
| ValueError
| TypeError
| NameError (name : string)
| UnboundLocalError (name : string)
| SystemExit (code : Z).

(** [except Exception] catches everything but [SystemExit]. *)
Definition is_Exception (e : exn) : bool :=
  match e with
  | SystemExit _ => false
  | _ => true
  end.

Definition is_CalledProcessError (e : exn) : bool :=
  match e with
  | CalledProcessError => true
  | _ => false
  end.

(** [str.isspace] on one byte (C locale): space, and tab to carriage return. *)
Definition isspace (c : ascii) : bool :=
  let n := nat_of_ascii c in
  ((n =? 32) || ((9 <=? n) && (n <=? 13)))%nat.

Definition isdigit (c : ascii) : bool :=
  let n := nat_of_ascii c in
  ((48 <=? n) && (n <=? 57))%nat.

Definition is_empty (s : string) : bool :=
  match s with
  | EmptyString => true
  | String _ _ => false
  end.

Fixpoint lstrip (s : string) : string :=
  match s with
  | EmptyString => EmptyString
  | String c r => if isspace c then lstrip r else s
  end.

Fixpoint rstrip (s : string) : string :=
  match s with
  | EmptyString => EmptyString
  | String c r =>
      let r' := rstrip r in
      if isspace c && is_empty r' then EmptyString else String c r'
  end.

(** [s.strip()] *)
Definition strip (s : string) : string := lstrip (rstrip s).

(** [string.split(s)]: the maximal runs of non-blank bytes, in order.
    [cur] is the token being read. *)
Fixpoint split_from (cur : string) (s : string) : list string :=
  match s with
  | EmptyString => if is_empty cur then [] else [cur]
  | String c r =>
      if isspace c
      then (if is_empty cur then split_from EmptyString r
            else cur :: split_from EmptyString r)
      else split_from (cur ++ String c EmptyString) r
  end.

Definition split (s : string) : list string := split_from EmptyString s.

(** [string.split(s, sep)] for a one-byte separator: every occurrence
    cuts, empty fields are kept, so the result is never empty. *)
Fixpoint split_sep_from (sep : ascii) (cur : string) (s : string) : list string :=
  match s with
  | EmptyString => [cur]
  | String c r =>
      if Ascii.eqb c sep
      then cur :: split_sep_from sep EmptyString r
      else split_sep_from sep (cur ++ String c EmptyString) r
  end.

Definition split_sep (s : string) (sep : ascii) : list string :=
  split_sep_from sep EmptyString s.

(** [l[i]]: negative indices count from the end; [None] is [IndexError]. *)
Definition getitem {A : Type} (l : list A) (i : Z) : option A :=
  let n := Z.of_nat (List.length l) in
  if (0 <=? i) && (i <? n) then nth_error l (Z.to_nat i)
  else if (- n <=? i) && (i <? 0) then nth_error l (Z.to_nat (n + i))
  else None.

(** [l.index(x)]: position of the first occurrence; [None] is [ValueError]. *)
Fixpoint index (l : list string) (x : string) : option nat :=
  match l with
  | [] => None
  | y :: r => if String.eqb y x then Some O else option_map S (index r x)
  end.

(** [l.remove(x)]: the list without the first occurrence of [x];
    [None] is [ValueError]. *)
Fixpoint remove (l : list string) (x : string) : option (list string) :=
  match l with
  | [] => None
  | y :: r => if String.eqb y x then Some r else option_map (cons y) (remove r x)
  end.

(** Reads a run of decimal digits; returns its value and what follows. *)
Fixpoint digits (acc : Z) (s : string) : Z * string :=
  match s with
  | EmptyString => (acc, EmptyString)
  | String c r =>
      if isdigit c
      then digits (10 * acc + (Z.of_nat (nat_of_ascii c) - 48)) r
      else (acc, s)
  end.

(** [int(s)] on a [str], base ten: blanks, an optional sign, blanks,
    at least one digit, blanks.  [None] is [ValueError]. *)
Definition int (s : string) : option Z :=
  let s1 := lstrip s in
  let '(neg, s2) :=
    match s1 with
    | String "-"%char r => (true, r)
    | String "+"%char r => (false, r)
    | _ => (false, s1)
    end in
  let s3 := lstrip s2 in
  match s3 with
  | EmptyString => None
  | String c _ =>
      if isdigit c then
        let '(v, rest) := digits 0 s3 in
        if is_empty (lstrip rest) then Some (if neg then - v else v) else None
      else None
  end.

(** The two kinds of value a module-level constant of the script can
    hold: an [int] or a [str]. *)
Inductive obj : Type :=
| Int (z : Z)
| Str (s : string).

(** ["%d" % v]: the decimal text of an [int]; [None] is the [TypeError]
    that a [str] gives. *)
Definition format_d (v : obj) : option string :=
  match v with
  | Int z => Some (NilZero.string_of_int (Z.to_int z))
  | Str _ => None
  end.

End Py.

(** ** The shell and the log *)

(** The command lines the script builds, one constructor per place
    that builds one; [cmdline] below gives the text. *)
Inductive command : Type :=
| Sync (host : string)
| DateRemote (host : string)
| DateLocal
| ListRemote (short : string)
| ListLocal
| Ping (host : string)
| Deactivate (host : string)
| Activate (host : string).

(** What a shell invocation gives back: exit status and standard output. *)
Record outcome : Type := mkOutcome { status : Z; stdout : string }.

Inductive event : Type :=
| EvSleep (secs : Z)
| EvLog (msg : string)
| EvRun (c : command) (o : outcome).

Inductive result (A : Type) : Type :=
| Ok (a : A)
| Exn (e : Py.exn).

Arguments Ok {A} a.
Arguments Exn {A} e.

(** Module-level constants.  The environment lookups that give a [str]
    whether or not the variable is set are taken at their defaults: they
    only change the text of the commands and of the log.  [TEGU_PORT] is
    the exception, see below. *)
Definition dquote : string := String "034"%char EmptyString.

Definition LIBDIR : string := "/var/lib/tegu".
Definition ETCDIR : string := "/etc/tegu".
Definition CKPTDIR : string := LIBDIR ++ "/chkpt".
(** [os.getenv('TEGU_PORT', 29444)]: the [int] 29444 when the variable
    is not set, the [str] of the environment when it is.  [env_port] is
    the value of the variable, when set. *)
Definition TEGU_PORT (env_port : option string) : Py.obj :=
  match env_port with
  | Some s => Py.Str s
  | None => Py.Int 29444
  end.
Definition TEGU_USER : string := "tegu".
Definition TEGU_PROTO : string := "http".
Definition DEACTIVATE_CMD : string :=
  "/usr/bin/tegu_standby on;" ++ "killall tegu; killall tegu_agent".
Definition ACTIVATE_CMD : string :=
  "/usr/bin/tegu_standby off;" ++ "/usr/bin/start_tegu; /usr/bin/start_tegu_agent".
Definition SYNC_CMD : string := "/usr/bin/tegu_synch".
Definition HEARTBEAT_SEC : Z := 5.
Definition PRI_WAIT_SEC : Z := 5.
Definition STDBY_LIST : string := ETCDIR ++ "/standby_list".

(** [ssh_cmd]: the ssh prefix for a host; empty host is local execution. *)
Definition ssh_cmd (host : string) : string :=
  if String.eqb host EmptyString then EmptyString
  else "ssh -o StrictHostKeyChecking=no " ++ TEGU_USER ++ "@" ++ host ++ " ".

Definition ts_r_cmd (short : string) : string :=
  "tar -t -v --full-time -f $( ls -t " ++ LIBDIR ++ "/chkpt_synch." ++ short
  ++ ".*.tgz | head -1 ) "
  ++ "| (grep resmgr_ | sort -r -k 4,5 | head -1 ) 2>/dev/null".

Definition ts_l_cmd : string :=
  "ls --full-time -tF " ++ CKPTDIR ++ "/resmgr_* | grep -v " ++ dquote ++ "\/\$"
  ++ dquote ++ " 2>/dev/null" ++ "| head -1".

(** [curl_str] of [is_active]: the port goes through [%d], so building
    the text fails ([None], a [TypeError]) when the port is a [str]. *)
Definition curl_str (port : Py.obj) (host : string) : option string :=
  match Py.format_d port with
  | None => None
  | Some d =>
      Some ("curl --noproxy '*' --connect-timeout 3 -s -d " ++ dquote ++ "ping"
            ++ dquote ++ " " ++ TEGU_PROTO ++ "://" ++ host ++ ":" ++ d
            ++ "/tegu/api " ++ "| grep -q -i pong 2>/dev/null")%string
  end.

Definition cmdline (env_port : option string) (c : command) : option string :=
  match c with
  | Sync host => Some (ssh_cmd host ++ SYNC_CMD)%string
  | DateRemote host => Some (ssh_cmd host ++ "/bin/date +%s")%string
  | DateLocal => Some (ssh_cmd EmptyString ++ "date +%s")%string
  | ListRemote short => Some (ts_r_cmd short)
  | ListLocal => Some ts_l_cmd
  | Ping host => curl_str (TEGU_PORT env_port) host
  | Deactivate host => Some (ssh_cmd host ++ DEACTIVATE_CMD)%string
  | Activate host => Some (ssh_cmd host ++ ACTIVATE_CMD)%string
  end.

(** The final comparison of [should_be_active]:
    [ts_r+skew > ts_l or (ts_r+skew == ts_l and host < socket.getfqdn())].
    Python 2 compares [str] values byte by byte. *)
Definition remote_is_newer (ts_r skew ts_l : Z) (host fqdn : string) : bool :=
  (ts_r + skew >? ts_l) || ((ts_r + skew =? ts_l) && String.ltb host fqdn).

(** Lexicographic order on byte strings, as a relation. *)
Inductive lex_lt : string -> string -> Prop :=
| lex_lt_nil c s : lex_lt EmptyString (String c s)
| lex_lt_head c1 c2 s1 s2 :
    (nat_of_ascii c1 < nat_of_ascii c2)%nat -> lex_lt (String c1 s1) (String c2 s2)
| lex_lt_tail c s1 s2 : lex_lt s1 s2 -> lex_lt (String c s1) (String c s2).

(** ** The script, run against a shell oracle *)

Section Script.

(** The value of the environment variable [TEGU_PORT], when it is set. *)
Variable env_port : option string.

(** [sh n c]: what the shell answers when [c] is the [n]-th invocation. *)
Variable sh : nat -> command -> outcome.

(** [socket.getfqdn()] *)
Variable getfqdn : string.

(** [int(time.mktime(time.strptime(s, "%Y-%m-%d %H:%M:%S")))]; [None]
    when either call raises.  The result depends on the time zone of
    the machine. *)
Variable mktime_strptime : string -> option Z.

(** A computation takes the number of shell invocations made so far and
    gives the events it adds, the new count, and a value or an exception. *)
Definition M (A : Type) : Type := nat -> list event * nat * result A.

Definition ret {A} (a : A) : M A := fun n => ([], n, Ok a).

Definition raise {A} (e : Py.exn) : M A := fun n => ([], n, Exn e).

Definition bind {A B} (m : M A) (f : A -> M B) : M B :=
  fun n =>
    match m n with
    | (t1, n1, Ok a) =>
        match f a n1 with
        | (t2, n2, r) => (t1 ++ t2, n2, r)
        end
    | (t1, n1, Exn e) => (t1, n1, Exn e)
    end.

(** [try: m  except <handles>: h] *)
Definition try_except {A} (m : M A) (handles : Py.exn -> bool) (h : M A) : M A :=
  fun n =>
    match m n with
    | (t1, n1, Ok a) => (t1, n1, Ok a)
    | (t1, n1, Exn e) =>
        if handles e then
          match h n1 with
          | (t2, n2, r) => (t1 ++ t2, n2, r)
          end
        else (t1, n1, Exn e)
    end.

Definition emit (e : event) : M unit := fun n => ([e], n, Ok tt).

Definition run_shell (c : command) : M outcome :=
  fun n => let o := sh n c in ([EvRun c o], S n, Ok o).

Notation "x <- m ;; k" := (bind m (fun x => k))
  (at level 61, m at next level, right associativity).
Notation "m ;; k" := (bind m (fun _ => k))
  (at level 61, right associativity).

(** [subprocess.check_call] and [subprocess.check_output] *)
Definition check_call (c : command) : M unit :=
  o <- run_shell c ;;
  if status o =? 0 then ret tt else raise Py.CalledProcessError.

Definition check_output (c : command) : M string :=
  o <- run_shell c ;;
  if status o =? 0 then ret (stdout o) else raise Py.CalledProcessError.

Definition sleep (secs : Z) : M unit := emit (EvSleep secs).

(** [logit] writes one line to stderr; the time prefix is left out. *)
Definition logit (msg : string) : M unit := emit (EvLog msg).

Definition crit (msg : string) : M unit := logit ("CRI: " ++ msg).
Definition err (msg : string) : M unit := logit ("ERR: " ++ msg).
Definition warn (msg : string) : M unit := logit ("WRN: " ++ msg).

Definition get_checkpoint (host : string) : M bool :=
  try_except
    (check_call (Sync host) ;; ret true)
    Py.is_CalledProcessError
    (warn ("Could not sync chkpts from " ++ host) ;; ret false).

(** The [except] clause of [extract_dt]: it builds the log line from
    [toks[c1]] and [ttoks[0]].  [ttoks] is [None] when the local
    variable was never assigned. *)
Definition extract_dt_handler (toks : list string) (ttoks : option (list string))
    (c1 : Z) : M Z :=
  match Py.getitem toks c1 with
  | None => raise Py.IndexError
  | Some t1 =>
      match ttoks with
      | None => raise (Py.UnboundLocalError "ttoks")
      | Some tt0 =>
          match Py.getitem tt0 0 with
          | None => raise Py.IndexError
          | Some t0 =>
              logit ("unable to build a timestamp from: " ++ t1 ++ " and " ++ t0) ;;
              ret 0
          end
      end
  end.

Definition extract_dt (str : string) (c1 c2 : Z) : M Z :=
  let toks := Py.split str in
  (* what the second line of the [try] assigns, when it does not raise *)
  let ttoks :=
    option_map (fun t2 => Py.split_sep t2 "."%char) (Py.getitem toks c2) in
  try_except
    (match ttoks with
     | None => raise Py.IndexError
     | Some tt0 =>
         match Py.getitem toks c1 with
         | None => raise Py.IndexError
         | Some t1 =>
             match Py.getitem tt0 0 with
             | None => raise Py.IndexError
             | Some t0 =>
                 match mktime_strptime (t1 ++ " " ++ t0) with
                 | None => raise Py.ValueError
                 | Some ts => ret ts
                 end
             end
         end
     end)
    Py.is_Exception
    (extract_dt_handler toks ttoks c1).

Definition should_be_active (host : string) : M bool :=
  let htoks := Py.split_sep host "."%char in
  match Py.getitem htoks 0 with
  | None => raise Py.IndexError
  | Some short =>
      ok_r <- get_checkpoint host ;;
      if negb ok_r then ret false else
      ok_l <- get_checkpoint EmptyString ;;
      if negb ok_l then ret true else
      try_except
        (logit ("checking clock skew: " ++ ssh_cmd host ++ "date +%s") ;;
         out_r <- check_output (DateRemote host) ;;
         match Py.int out_r with
         | None => raise Py.ValueError
         | Some time_r =>
             out_l <- check_output DateLocal ;;
             match Py.int out_l with
             | None => raise Py.ValueError
             | Some time_l =>
                 let skew := time_l - time_r in
                 ts_r_s <- check_output (ListRemote short) ;;
                 ts_l_s <- check_output ListLocal ;;
                 if Py.is_empty ts_r_s || Py.is_empty ts_l_s then
                   logit ("unable to find chkpt file info host:" ++ host) ;;
                   raise (Py.NameError "false")
                 else
                   ts_r <- extract_dt ts_r_s 3 4 ;;
                   ts_l <- extract_dt ts_l_s 5 6 ;;
                   ret (remote_is_newer ts_r skew ts_l host getfqdn)
             end
         end)
        Py.is_CalledProcessError
        (warn "Could not get chkpt timestamps" ;; ret false)
  end.

(** [curl_str] is built before the [try]. *)
Definition is_active (host : string) : M bool :=
  match curl_str (TEGU_PORT env_port) host with
  | None => raise Py.TypeError
  | Some _ =>
      try_except (check_call (Ping host) ;; ret true)
        Py.is_CalledProcessError (ret false)
  end.

Definition deactivate_tegu (host : string) : M bool :=
  try_except (check_call (Deactivate host) ;; ret true)
    Py.is_CalledProcessError (ret false).

Definition activate_tegu (host : string) : M bool :=
  try_except (check_call (Activate host) ;; ret true)
    Py.is_CalledProcessError (ret false).

(** One turn of the [for host in standby_list] loop of [main_loop], on
    the pair [(i_am_active, any_active)]. *)
Definition check_host (this_node host : string) (st : bool * bool) : M (bool * bool) :=
  let '(i_am_active, any_active) := st in
  if String.eqb host this_node then ret st else
  host_active <- is_active host ;;
  st1 <-
    (if i_am_active && host_active then
       logit "checking for split" ;;
       host_active <- should_be_active host ;;
       if host_active then
         logit ("deactivate myself, " ++ host ++ " already running") ;;
         _ <- deactivate_tegu EmptyString ;;
         ret (false, host_active)
       else
         logit ("deactivate " ++ host ++ " already running here") ;;
         _ <- deactivate_tegu host ;;
         ret (i_am_active, host_active)
     else ret (i_am_active, host_active)) ;;
  ret (fst st1, any_active || snd st1).

Fixpoint check_hosts (this_node : string) (standby_list : list string)
    (st : bool * bool) : M (bool * bool) :=
  match standby_list with
  | [] => ret st
  | host :: rest =>
      st' <- check_host this_node host st ;;
      check_hosts this_node rest st'
  end.

(** The body of [while True] in [main_loop]; takes and gives [priority_wait]. *)
Definition cycle (standby_list : list string) (this_node : string) (priority : nat)
    (priority_wait : bool) : M bool :=
  (if negb priority_wait then sleep HEARTBEAT_SEC
   else sleep (PRI_WAIT_SEC * Z.of_nat priority)) ;;
  i_am_active <- is_active "localhost" ;;
  st <- check_hosts this_node standby_list (i_am_active, i_am_active) ;;
  if negb (snd st) then
    if priority_wait || (priority =? 0)%nat then
      logit "no running tegu found, starting here" ;;
      _ <- activate_tegu EmptyString ;;
      ret false
    else ret true
  else ret priority_wait.

(** [main_loop] never returns; [loop_from fuel pw] runs [fuel] turns from
    [priority_wait = pw] and gives [priority_wait] as it then stands. *)
Fixpoint loop_from (standby_list : list string) (this_node : string) (priority : nat)
    (fuel : nat) (priority_wait : bool) : M bool :=
  match fuel with
  | O => ret priority_wait
  | S fuel' =>
      pw <- cycle standby_list this_node priority priority_wait ;;
      loop_from standby_list this_node priority fuel' pw
  end.

Definition main_loop (standby_list : list string) (this_node : string)
    (priority : nat) (fuel : nat) : M bool :=
  loop_from standby_list this_node priority fuel false.

(** [main] up to the call of [main_loop]: from the lines of the standby
    file to the peers and the priority. *)
Definition main_startup (lines : list string) : M (list string * string * nat) :=
  logit "tegu_ha v1.0 started" ;;
  let standby_list := map Py.strip lines in
  let this_node := getfqdn in
  match Py.index standby_list this_node with
  | Some priority =>
      match Py.remove standby_list this_node with
      | Some standby_list' => ret (standby_list', this_node, priority)
      | None =>
          crit ("Could not find host " ++ this_node ++ " in standby list: " ++ STDBY_LIST) ;;
          raise (Py.SystemExit 1)
      end
  | None =>
      crit ("Could not find host " ++ this_node ++ " in standby list: " ++ STDBY_LIST) ;;
      raise (Py.SystemExit 1)
  end.

Definition main (lines : list string) (fuel : nat) : M bool :=
  cfg <- main_startup lines ;;
  let '(standby_list, this_node, priority) := cfg in
  main_loop standby_list this_node priority fuel.

End Script.

Arguments ret {A} a _.
Arguments raise {A} e _.

(** ** Reading a run *)

Definition trace {A : Type} (x : list event * nat * result A) : list event :=
  fst (fst x).

Definition value {A : Type} (x : list event * nat * result A) : result A :=
  snd x.

(** A liveness probe, and a probe that found the tegu running. *)
Definition is_ping (e : event) : bool :=
  match e with
  | EvRun (Ping _) _ => true
  | _ => false
  end.

Definition is_ping_ok (e : event) : bool :=
  match e with
  | EvRun (Ping _) o => status o =? 0
  | _ => false
  end.

(** The number of nodes the probes of a trace found active. *)
Definition active_count (t : list event) : nat :=
  List.length (filter is_ping_ok t).

Definition is_activation (e : event) : bool :=
  match e with
  | EvRun (Activate _) _ => true
  | _ => false
  end.

(** An activate or deactivate command. *)
Definition is_lifecycle (e : event) : bool :=
  match e with
  | EvRun (Activate _) _ | EvRun (Deactivate _) _ => true
  | _ => false
  end.

(** A command that only [should_be_active] runs. *)
Definition is_resolution (e : event) : bool :=
  match e with
  | EvRun (Sync _) _ | EvRun (DateRemote _) _ | EvRun DateLocal _
  | EvRun (ListRemote _) _ | EvRun ListLocal _ => true
  | _ => false
  end.

Definition is_sleep (e : event) : bool :=
  match e with
  | EvSleep _ => true
  | _ => false
  end.

Definition is_log (e : event) : bool :=
  match e with
  | EvLog _ => true
  | _ => false
  end.

(** [emits P m]: whatever the count it starts from, [m] only adds
    events that satisfy [P]. *)
Definition emits {A : Type} (P : event -> bool) (m : M A) : Prop :=
  forall n, forallb P (trace (m n)) = true.

(** Neither a sleep nor an activate command. *)
Definition is_quiet (e : event) : bool :=
  negb (is_sleep e || is_activation e).

(** The sleep that opens a turn of the loop. *)
Definition cycle_delay (priority : nat) (priority_wait : bool) : Z :=
  if priority_wait then PRI_WAIT_SEC * Z.of_nat priority else HEARTBEAT_SEC.

(** ** More ways to read a run *)

Definition is_deactivation (e : event) : bool :=
  match e with
  | EvRun (Deactivate _) _ => true
  | _ => false
  end.

(** What conflict resolution may emit: log lines and its own commands. *)
Definition is_read_only (e : event) : bool :=
  is_log e || is_resolution e.

(** The hosts a trace probed, in order. *)
Definition probed (t : list event) : list string :=
  flat_map (fun e => match e with
                     | EvRun (Ping host) _ => [host]
                     | _ => []
                     end) t.

(** The entries of the standby list that the loop does not skip. *)
Definition peers_of (this_node : string) (standby_list : list string) : list string :=
  filter (fun host => negb (String.eqb host this_node)) standby_list.

(** [runs_at_most k m]: [m] makes at most [k] shell invocations. *)
Definition runs_at_most {A : Type} (k : nat) (m : M A) : Prop :=
  forall n, (n <= snd (fst (m n)) <= n + k)%nat.

(** [raises_only Q m]: an exception that leaves [m] satisfies [Q]. *)
Definition raises_only {A : Type} (Q : Py.exn -> bool) (m : M A) : Prop :=
  forall n e, value (m n) = Exn e -> Q e = true.

(** The exceptions that nothing in the script catches. *)
Definition is_uncaught (e : Py.exn) : bool :=
  match e with
  | Py.ValueError | Py.IndexError => true
  | Py.NameError name => String.eqb name "false"
  | Py.UnboundLocalError name => String.eqb name "ttoks"
  | _ => false
  end.

(** What can end the loop: the above, and the [TypeError] of the port
    when [TEGU_PORT] is set in the environment. *)
Definition is_loop_exn (env_port : option string) (e : Py.exn) : bool :=
  is_uncaught e
  || match e, env_port with
     | Py.TypeError, Some _ => true
     | _, _ => false
     end.

(** The probes of [hosts], one after the other from the [n]-th shell
    invocation on, with what the shell answers. *)
Fixpoint probe_events (sh : nat -> command -> outcome) (n : nat)
    (hosts : list string) : list event :=
  match hosts with
  | [] => []
  | host :: rest => EvRun (Ping host) (sh n (Ping host)) :: probe_events sh (S n) rest
  end.

(** A sleep of the loop: a heartbeat, or the wait of a node of
    priority other than 0. *)
Definition is_loop_sleep (priority : nat) (e : event) : Prop :=
  match e with
  | EvSleep secs =>
      secs = HEARTBEAT_SEC
      \/ (priority <> 0%nat /\ secs = PRI_WAIT_SEC * Z.of_nat priority)
  | _ => True
  end.

(** [answered host t]: a probe of [host] in [t] exited with status 0. *)
Definition answered (host : string) (t : list event) : bool :=
  existsb (fun e => match e with
                    | EvRun (Ping h) o => String.eqb h host && (status o =? 0)
                    | _ => false
                    end) t.

(** A deactivate command of [e] is aimed at the local node (empty
    host) or at a host that answered a probe of [t], and the local
    tegu answered too when [local] is set. *)
Definition deactivation_seen (local : bool) (t : list event) (e : event) : Prop :=
  match e with
  | EvRun (Deactivate h) _ =>
      local = true /\ (h = EmptyString \/ answered h t = true)
  | _ => True
  end.

Fixpoint has_char (c : ascii) (s : string) : bool :=
  match s with
  | EmptyString => false
  | String d r => Ascii.eqb d c || has_char c r
  end.

(** ** Shells and clocks for the examples *)

Module Examples.

Definition failed : outcome := mkOutcome 1 EmptyString.
Definition done : outcome := mkOutcome 0 EmptyString.

(** No time stamp can be built. *)
Definition no_time (s : string) : option Z := None.

(** Every command fails. *)
Definition sh_down (n : nat) (c : command) : outcome := failed.

(** Every command fails but the [k]-th invocation, which succeeds. *)
Definition sh_only (k : nat) (n : nat) (c : command) : outcome :=
  if (n =? k)%nat then done else failed.

(** Everything answers and both syncs work, the clocks read 100 and
    103, but no checkpoint of the remote host is listed. *)
Definition sh_no_chkpt (n : nat) (c : command) : outcome :=
  match c with
  | DateRemote _ => mkOutcome 0 "100"
  | DateLocal => mkOutcome 0 "103"
  | ListRemote _ => mkOutcome 0 EmptyString
  | ListLocal =>
      mkOutcome 0 "-rw-r--r-- 1 tegu tegu 512 2015-01-30 10:00:00.000000000 +0000 resmgr_1.ckpt"
  | _ => done
  end.

(** Everything answers, but the remote clock read prints a banner. *)
Definition sh_banner (n : nat) (c : command) : outcome :=
  match c with
  | DateRemote _ => mkOutcome 0 "Last login: Fri Jan 30"
  | DateLocal => mkOutcome 0 "103"
  | _ => done
  end.

(** Everything answers, the remote checkpoint is the newer one, and
    no deactivate command works. *)
Definition sh_remote_newer (n : nat) (c : command) : outcome :=
  match c with
  | DateRemote _ => mkOutcome 0 "100"
  | DateLocal => mkOutcome 0 "100"
  | ListRemote _ =>
      mkOutcome 0 "-rw-r--r-- tegu/tegu 512 2015-01-30 10:20:00 resmgr_2.ckpt"
  | ListLocal =>
      mkOutcome 0 "-rw-r--r-- 1 tegu tegu 512 2015-01-30 10:00:00.000000000 +0000 resmgr_1.ckpt"
  | Deactivate _ => failed
  | _ => done
  end.

(** Nothing runs at first; from the [k]-th invocation on, the tegu of
    [peer] answers the probe. *)
Definition sh_peer_from (k : nat) (peer : string) (n : nat) (c : command) : outcome :=
  match c with
  | Ping host => if String.eqb host peer && (k <=? n)%nat then done else failed
  | _ => failed
  end.

(** Both tegus answer and both pulls work, but the remote clock cannot
    be read. *)
Definition sh_no_clock (n : nat) (c : command) : outcome :=
  match c with
  | DateRemote _ => failed
  | _ => done
  end.

(** A clock that knows the two times of [sh_remote_newer]. *)
Definition two_times (s : string) : option Z :=
  if String.eqb s "2015-01-30 10:20:00" then Some 1200
  else if String.eqb s "2015-01-30 10:00:00" then Some 1000
  else None.

End Examples.

(** ** The checkpoint comparison *)

Section Comparator.

Lemma ascii_compare_lt (c1 c2 : ascii) :
  Ascii.compare c1 c2 = Lt <-> (nat_of_ascii c1 < nat_of_ascii c2)%nat.
Proof.
  unfold Ascii.compare, nat_of_ascii.
  rewrite N.compare_lt_iff. lia.
Qed.

Lemma ascii_compare_refl (c : ascii) : Ascii.compare c c = Eq.
Proof. unfold Ascii.compare. apply N.compare_refl. Qed.

Lemma string_compare_lt_lex (a : string) :
  forall b, String.compare a b = Lt <-> lex_lt a b.
Proof.
  induction a as [|c a IH]; intros [|d b]; simpl.
  - split; [discriminate | inversion 1].
  - split; [intros _; constructor | reflexivity].
  - split; [discriminate | inversion 1].
  - destruct (Ascii.compare c d) eqn:E.
    + apply Ascii.compare_eq_iff in E. subst d.
      rewrite IH. split.
      * apply lex_lt_tail.
      * inversion 1 as [ | ? ? ? ? Hlt | ? ? ? Ht ]; subst; [lia | assumption].
    + split; [intros _; apply lex_lt_head; now apply ascii_compare_lt | reflexivity].
    + split; [discriminate |].
      inversion 1 as [ | ? ? ? ? Hlt | ? ? ? Ht ]; subst.
      * apply ascii_compare_lt in Hlt. congruence.
      * rewrite ascii_compare_refl in E. discriminate.
Qed.

Lemma string_ltb_lex (a b : string) : String.ltb a b = true <-> lex_lt a b.
Proof.
  rewrite <- string_compare_lt_lex. unfold String.ltb.
  destruct (String.compare a b); split; congruence.
Qed.

Lemma string_ltb_connex (a b : string) :
  a <> b -> String.ltb b a = negb (String.ltb a b).
Proof.
  intros Hne. unfold String.ltb.
  rewrite (String.compare_antisym b a).
  destruct (String.compare a b) eqn:E; simpl; try reflexivity.
  apply String.compare_eq_iff in E. contradiction.
Qed.

(** C1.  The final comparison of [should_be_active] says "remote should
    be active" exactly when [ts_r + skew > ts_l], or [ts_r + skew = ts_l]
    and the remote host name is lexicographically below the local one;
    and when [ts_r + skew > ts_l] it says so whatever the host names. *)
Theorem remote_is_newer_spec (ts_r ts_l skew : Z) (remoteHost localHost : string) :
  (remote_is_newer ts_r skew ts_l remoteHost localHost = true <->
     ts_r + skew > ts_l \/ (ts_r + skew = ts_l /\ lex_lt remoteHost localHost))
  /\ (ts_r + skew > ts_l ->
      forall h1 h2 : string, remote_is_newer ts_r skew ts_l h1 h2 = true).
Proof.
  unfold remote_is_newer. split.
  - rewrite orb_true_iff, andb_true_iff, Z.gtb_gt, Z.eqb_eq, string_ltb_lex.
    reflexivity.
  - intros H h1 h2. apply Z.gtb_gt in H. now rewrite H.
Qed.

Lemma remote_is_newer_spec_witness :
  remote_is_newer 1200 0 1000 "hostC" "hostB" = true.
Proof.
  apply (proj2 (remote_is_newer_spec 1200 1000 0 "a" "b")). lia.
Defined.

(** C2.  For two distinct host names, the evaluation on node A (remote
    B, skew [tA - tB]) and the evaluation on node B (remote A, skew
    [tB - tA]) give opposite answers: exactly one says "remote should be
    active". *)
Theorem remote_is_newer_complementary (A B : string) (tsA tsB tA tB : Z) :
  A <> B ->
  remote_is_newer tsB (tA - tB) tsA B A
  = negb (remote_is_newer tsA (tB - tA) tsB A B).
Proof.
  intros Hne. unfold remote_is_newer.
  rewrite (string_ltb_connex A B Hne).
  destruct (Z.gtb_spec (tsB + (tA - tB)) tsA) as [H1|H1];
    destruct (Z.gtb_spec (tsA + (tB - tA)) tsB) as [H2|H2];
    destruct (Z.eqb_spec (tsB + (tA - tB)) tsA) as [H3|H3];
    destruct (Z.eqb_spec (tsA + (tB - tA)) tsB) as [H4|H4];
    try lia; simpl; reflexivity.
Qed.

Lemma remote_is_newer_complementary_witness :
  remote_is_newer 1000 (50 - 80) 970 "hostB" "hostA"
  = negb (remote_is_newer 970 (80 - 50) 1000 "hostA" "hostB").
Proof.
  apply (remote_is_newer_complementary "hostA" "hostB" 970 1000 50 80).
  discriminate.
Defined.

End Comparator.

(** ** Runs of the small commands *)

Section Runs.

Variable sh : nat -> command -> outcome.
Variable getfqdn : string.
Variable mktime_strptime : string -> option Z.

Lemma bind_Ok {A B : Type} (m : M A) (f : A -> M B) n t n1 a :
  m n = (t, n1, Ok a) ->
  bind m f n = (t ++ trace (f a n1), snd (fst (f a n1)), value (f a n1)).
Proof.
  intros H. unfold bind, trace, value. rewrite H.
  now destruct (f a n1) as [[t2 n2] r].
Qed.

Lemma bind_Exn {A B : Type} (m : M A) (f : A -> M B) n t n1 e :
  m n = (t, n1, Exn e) -> bind m f n = (t, n1, Exn e).
Proof. intros H. unfold bind. now rewrite H. Qed.

Lemma run_eta {A : Type} (x : list event * nat * result A) :
  x = (trace x, snd (fst x), value x).
Proof. now destruct x as [[t n] r]. Qed.

Lemma is_active_run host n :
  is_active None sh host n
  = ([EvRun (Ping host) (sh n (Ping host))], S n,
     Ok (status (sh n (Ping host)) =? 0)).
Proof.
  unfold is_active, try_except, check_call, bind, run_shell. simpl.
  now destruct (status (sh n (Ping host)) =? 0).
Qed.

Lemma deactivate_tegu_run host n :
  deactivate_tegu sh host n
  = ([EvRun (Deactivate host) (sh n (Deactivate host))], S n,
     Ok (status (sh n (Deactivate host)) =? 0)).
Proof.
  unfold deactivate_tegu, try_except, check_call, bind, run_shell. simpl.
  now destruct (status (sh n (Deactivate host)) =? 0).
Qed.

Lemma activate_tegu_run host n :
  activate_tegu sh host n
  = ([EvRun (Activate host) (sh n (Activate host))], S n,
     Ok (status (sh n (Activate host)) =? 0)).
Proof.
  unfold activate_tegu, try_except, check_call, bind, run_shell. simpl.
  now destruct (status (sh n (Activate host)) =? 0).
Qed.

Lemma get_checkpoint_run host n :
  get_checkpoint sh host n
  = (EvRun (Sync host) (sh n (Sync host))
       :: (if status (sh n (Sync host)) =? 0 then []
           else [EvLog ("WRN: Could not sync chkpts from " ++ host)]),
     S n, Ok (status (sh n (Sync host)) =? 0)).
Proof.
  unfold get_checkpoint, try_except, check_call, bind, run_shell, warn, logit, emit.
  simpl. now destruct (status (sh n (Sync host)) =? 0).
Qed.

Lemma check_output_run c n :
  check_output sh c n
  = ([EvRun c (sh n c)], S n,
     if status (sh n c) =? 0 then Ok (stdout (sh n c)) else Exn Py.CalledProcessError).
Proof.
  unfold check_output, bind, run_shell. simpl.
  now destruct (status (sh n c) =? 0).
Qed.

Lemma split_sep_from_cons sep s :
  forall cur, exists x r, Py.split_sep_from sep cur s = x :: r.
Proof.
  induction s as [|c s IH]; intros cur; simpl.
  - now exists cur, [].
  - destruct (Ascii.eqb c sep); [now eexists _, _ | apply IH].
Qed.

Lemma getitem_head {A : Type} (x : A) (r : list A) : Py.getitem (x :: r) 0 = Some x.
Proof.
  unfold Py.getitem.
  replace (0 <? Z.of_nat (Datatypes.length (x :: r))) with true; [reflexivity|].
  symmetry. apply Z.ltb_lt. simpl Datatypes.length. lia.
Qed.

Lemma split_sep_first s sep :
  exists short, Py.getitem (Py.split_sep s sep) 0 = Some short.
Proof.
  destruct (split_sep_from_cons sep s EmptyString) as (x & r & E).
  exists x. unfold Py.split_sep. rewrite E. apply getitem_head.
Qed.

End Runs.

(** ** Conflict resolution: [should_be_active] *)

Section Resolution.

Variable sh : nat -> command -> outcome.
Variable getfqdn : string.
Variable mktime_strptime : string -> option Z.

(** C8.  When the pull of the remote checkpoints fails, [should_be_active]
    warns and returns [False] and runs nothing else; when that pull works
    and the pull of the local checkpoints fails, it warns and returns
    [True] and runs nothing else. *)
Theorem should_be_active_sync_failure (host : string) (n : nat) :
  (status (sh n (Sync host)) <> 0 ->
   should_be_active sh getfqdn mktime_strptime host n
   = ([EvRun (Sync host) (sh n (Sync host));
       EvLog ("WRN: Could not sync chkpts from " ++ host)],
      S n, Ok false))
  /\ (status (sh n (Sync host)) = 0 ->
      status (sh (S n) (Sync EmptyString)) <> 0 ->
      should_be_active sh getfqdn mktime_strptime host n
      = ([EvRun (Sync host) (sh n (Sync host));
          EvRun (Sync EmptyString) (sh (S n) (Sync EmptyString));
          EvLog "WRN: Could not sync chkpts from "],
         S (S n), Ok true)).
Proof.
  destruct (split_sep_first host "."%char) as [short E].
  unfold should_be_active. rewrite E. split.
  - intros H. apply Z.eqb_neq in H.
    unfold bind. rewrite get_checkpoint_run, H. reflexivity.
  - intros H1 H2. apply Z.eqb_eq in H1. apply Z.eqb_neq in H2.
    unfold bind. rewrite get_checkpoint_run, H1. simpl.
    rewrite get_checkpoint_run, H2. reflexivity.
Qed.

(** Both pulls work, both clocks are read, both listings exit with
    status 0, and one of them prints nothing: the run, event by event. *)
Lemma should_be_active_empty_listing (host short : string) (n : nat)
    (time_r time_l : Z) :
  Py.getitem (Py.split_sep host "."%char) 0 = Some short ->
  status (sh n (Sync host)) = 0 ->
  status (sh (1 + n) (Sync EmptyString)) = 0 ->
  status (sh (2 + n) (DateRemote host)) = 0 ->
  Py.int (stdout (sh (2 + n) (DateRemote host))) = Some time_r ->
  status (sh (3 + n) DateLocal) = 0 ->
  Py.int (stdout (sh (3 + n) DateLocal)) = Some time_l ->
  status (sh (4 + n) (ListRemote short)) = 0 ->
  status (sh (5 + n) ListLocal) = 0 ->
  stdout (sh (4 + n) (ListRemote short)) = EmptyString
  \/ stdout (sh (5 + n) ListLocal) = EmptyString ->
  should_be_active sh getfqdn mktime_strptime host n
  = ([EvRun (Sync host) (sh n (Sync host));
      EvRun (Sync EmptyString) (sh (1 + n) (Sync EmptyString));
      EvLog ("checking clock skew: " ++ ssh_cmd host ++ "date +%s");
      EvRun (DateRemote host) (sh (2 + n) (DateRemote host));
      EvRun DateLocal (sh (3 + n) DateLocal);
      EvRun (ListRemote short) (sh (4 + n) (ListRemote short));
      EvRun ListLocal (sh (5 + n) ListLocal);
      EvLog ("unable to find chkpt file info host:" ++ host)],
     (6 + n)%nat, Exn (Py.NameError "false")).
Proof.
  intros E S0 S1 S2 I2 S3 I3 S4 S5 Hempty.
  apply Z.eqb_eq in S0, S1, S2, S3, S4, S5.
  assert (Hor : Py.is_empty (stdout (sh (4 + n) (ListRemote short)))
                || Py.is_empty (stdout (sh (5 + n) ListLocal)) = true).
  { destruct Hempty as [H|H]; rewrite H; simpl; [reflexivity | apply orb_true_r]. }
  simpl plus in *.
  unfold should_be_active. rewrite E.
  unfold bind, try_except.
  rewrite get_checkpoint_run, S0. simpl.
  rewrite get_checkpoint_run, S1. simpl.
  rewrite check_output_run, S2, I2.
  rewrite check_output_run, S3, I3.
  rewrite check_output_run, S4.
  rewrite check_output_run, S5.
  rewrite Hor. reflexivity.
Qed.

(** C6 (what the code does).  Both pulls work, both clocks are read, both
    listings exit with status 0, and one of them prints nothing: the
    condition is logged last, and then [return false] raises
    [NameError], which the [except] clause does not catch; [False] is
    not returned. *)
Theorem should_be_active_no_checkpoint (host short : string) (n : nat)
    (time_r time_l : Z) :
  Py.getitem (Py.split_sep host "."%char) 0 = Some short ->
  status (sh n (Sync host)) = 0 ->
  status (sh (1 + n) (Sync EmptyString)) = 0 ->
  status (sh (2 + n) (DateRemote host)) = 0 ->
  Py.int (stdout (sh (2 + n) (DateRemote host))) = Some time_r ->
  status (sh (3 + n) DateLocal) = 0 ->
  Py.int (stdout (sh (3 + n) DateLocal)) = Some time_l ->
  status (sh (4 + n) (ListRemote short)) = 0 ->
  status (sh (5 + n) ListLocal) = 0 ->
  stdout (sh (4 + n) (ListRemote short)) = EmptyString
  \/ stdout (sh (5 + n) ListLocal) = EmptyString ->
  last (trace (should_be_active sh getfqdn mktime_strptime host n)) (EvSleep 0)
  = EvLog ("unable to find chkpt file info host:" ++ host)
  /\ value (should_be_active sh getfqdn mktime_strptime host n)
     = Exn (Py.NameError "false")
  /\ value (should_be_active sh getfqdn mktime_strptime host n) <> Ok false.
Proof.
  intros E S0 S1 S2 I2 S3 I3 S4 S5 Hempty.
  rewrite (should_be_active_empty_listing host short n time_r time_l)
    by assumption.
  unfold trace, value. simpl. repeat split. discriminate.
Qed.

(** The remote clock is read but what it prints is not a number:
    [int] raises [ValueError], which the [except] clause does not catch. *)
Lemma should_be_active_bad_clock (host : string) (n : nat) :
  status (sh n (Sync host)) = 0 ->
  status (sh (1 + n) (Sync EmptyString)) = 0 ->
  status (sh (2 + n) (DateRemote host)) = 0 ->
  Py.int (stdout (sh (2 + n) (DateRemote host))) = None ->
  should_be_active sh getfqdn mktime_strptime host n
  = ([EvRun (Sync host) (sh n (Sync host));
      EvRun (Sync EmptyString) (sh (1 + n) (Sync EmptyString));
      EvLog ("checking clock skew: " ++ ssh_cmd host ++ "date +%s");
      EvRun (DateRemote host) (sh (2 + n) (DateRemote host))],
     (3 + n)%nat, Exn Py.ValueError).
Proof.
  intros S0 S1 S2 I2.
  apply Z.eqb_eq in S0, S1, S2.
  destruct (split_sep_first host "."%char) as [short E].
  simpl plus in *.
  unfold should_be_active. rewrite E.
  unfold bind, try_except.
  rewrite get_checkpoint_run, S0. simpl.
  rewrite get_checkpoint_run, S1. simpl.
  rewrite check_output_run, S2, I2.
  reflexivity.
Qed.

(** A clock that cannot be read at all is absorbed: warn, keep self. *)
Lemma should_be_active_clock_unreachable (host : string) (n : nat) :
  status (sh n (Sync host)) = 0 ->
  status (sh (1 + n) (Sync EmptyString)) = 0 ->
  status (sh (2 + n) (DateRemote host)) <> 0 ->
  should_be_active sh getfqdn mktime_strptime host n
  = ([EvRun (Sync host) (sh n (Sync host));
      EvRun (Sync EmptyString) (sh (1 + n) (Sync EmptyString));
      EvLog ("checking clock skew: " ++ ssh_cmd host ++ "date +%s");
      EvRun (DateRemote host) (sh (2 + n) (DateRemote host));
      EvLog "WRN: Could not get chkpt timestamps"],
     (3 + n)%nat, Ok false).
Proof.
  intros S0 S1 S2.
  apply Z.eqb_eq in S0, S1. apply Z.eqb_neq in S2.
  destruct (split_sep_first host "."%char) as [short E].
  simpl plus in *.
  unfold should_be_active. rewrite E.
  unfold bind, try_except.
  rewrite get_checkpoint_run, S0. simpl.
  rewrite get_checkpoint_run, S1. simpl.
  rewrite check_output_run, S2.
  reflexivity.
Qed.

End Resolution.

Lemma should_be_active_no_checkpoint_witness :
  last (trace (should_be_active Examples.sh_no_chkpt "hostA" Examples.no_time
                 "hostB" 0%nat)) (EvSleep 0)
  = EvLog ("unable to find chkpt file info host:" ++ "hostB")
  /\ value (should_be_active Examples.sh_no_chkpt "hostA" Examples.no_time "hostB" 0%nat)
     = Exn (Py.NameError "false")
  /\ value (should_be_active Examples.sh_no_chkpt "hostA" Examples.no_time "hostB" 0%nat)
     <> Ok false.
Proof.
  apply (should_be_active_no_checkpoint Examples.sh_no_chkpt "hostA" Examples.no_time
           "hostB" "hostB" 0%nat 100 103);
    try reflexivity.
  left. reflexivity.
Defined.


Lemma should_be_active_sync_failure_witness :
  should_be_active Examples.sh_down "hostA" Examples.no_time "hostB" 0%nat
  = ([EvRun (Sync "hostB") Examples.failed;
      EvLog "WRN: Could not sync chkpts from hostB"], 1%nat, Ok false)
  /\ should_be_active (Examples.sh_only 0) "hostA" Examples.no_time "hostB" 0%nat
     = ([EvRun (Sync "hostB") Examples.done;
         EvRun (Sync EmptyString) Examples.failed;
         EvLog "WRN: Could not sync chkpts from "], 2%nat, Ok true).
Proof.
  split.
  - apply (proj1 (should_be_active_sync_failure Examples.sh_down "hostA"
                    Examples.no_time "hostB" 0%nat)).
    discriminate.
  - apply (proj2 (should_be_active_sync_failure (Examples.sh_only 0) "hostA"
                    Examples.no_time "hostB" 0%nat)).
    + reflexivity.
    + discriminate.
Defined.

(** ** Time stamp extraction: [extract_dt] *)

Section Extraction.

Variable mktime_strptime : string -> option Z.

(** C7 (what the code does).  When the line has no token at column [c1]
    or at column [c2], the [except] clause itself raises while it builds
    the log message: nothing is logged, nothing is returned, and the
    exception leaves [extract_dt]. *)
Theorem extract_dt_too_few_tokens (str : string) (c1 c2 : Z) (n : nat) :
  Py.getitem (Py.split str) c1 = None \/ Py.getitem (Py.split str) c2 = None ->
  extract_dt mktime_strptime str c1 c2 n = ([], n, Exn Py.IndexError)
  \/ extract_dt mktime_strptime str c1 c2 n
     = ([], n, Exn (Py.UnboundLocalError "ttoks")).
Proof.
  intros H. unfold extract_dt, extract_dt_handler, try_except.
  destruct (Py.getitem (Py.split str) c2) as [t2|] eqn:E2; simpl.
  - destruct H as [H|H]; [|discriminate].
    rewrite H. now left.
  - destruct (Py.getitem (Py.split str) c1); [now right | now left].
Qed.

(** With a token at both columns [extract_dt] does not raise: it gives
    the time stamp, or logs and gives 0. *)
Lemma extract_dt_with_tokens (str : string) (c1 c2 : Z) (n : nat) (t1 t2 : string) :
  Py.getitem (Py.split str) c1 = Some t1 ->
  Py.getitem (Py.split str) c2 = Some t2 ->
  exists t0,
    Py.getitem (Py.split_sep t2 "."%char) 0 = Some t0
    /\ extract_dt mktime_strptime str c1 c2 n
       = match mktime_strptime (t1 ++ " " ++ t0) with
         | Some ts => ([], n, Ok ts)
         | None =>
             ([EvLog ("unable to build a timestamp from: " ++ t1 ++ " and " ++ t0)],
              n, Ok 0)
         end.
Proof.
  intros E1 E2.
  destruct (split_sep_first t2 "."%char) as [t0 E0].
  exists t0. split; [exact E0|].
  unfold extract_dt, extract_dt_handler, try_except. rewrite E2, E1.
  cbn [option_map]. rewrite E0.
  destruct (mktime_strptime (t1 ++ " " ++ t0)); reflexivity.
Qed.

End Extraction.

Lemma extract_dt_too_few_tokens_witness :
  extract_dt Examples.no_time "resmgr_1.ckpt" 3 4 0%nat = ([], 0%nat, Exn Py.IndexError)
  \/ extract_dt Examples.no_time "resmgr_1.ckpt" 3 4 0%nat
     = ([], 0%nat, Exn (Py.UnboundLocalError "ttoks")).
Proof.
  apply (extract_dt_too_few_tokens Examples.no_time "resmgr_1.ckpt" 3 4 0%nat).
  left. reflexivity.
Defined.

(** ** Startup: [main] up to the loop *)

Section Startup.

Variable getfqdn : string.

Lemma index_remove_first (x : string) (l : list string) :
  In x l ->
  exists pre post,
    l = pre ++ x :: post /\ ~ In x pre
    /\ Py.index l x = Some (List.length pre)
    /\ Py.remove l x = Some (pre ++ post).
Proof.
  induction l as [|y l IH]; intros Hin; [contradiction|].
  simpl. destruct (String.eqb_spec y x) as [->|Hne].
  - exists [], l. repeat split. intros [].
  - destruct Hin as [Hin|Hin]; [contradiction|].
    destruct (IH Hin) as (pre & post & -> & Hpre & Hi & Hr).
    exists (y :: pre), post. rewrite Hi, Hr. repeat split.
    intros [H|H]; [contradiction | now apply Hpre].
Qed.

Lemma index_absent (x : string) (l : list string) :
  ~ In x l -> Py.index l x = None.
Proof.
  induction l as [|y l IH]; intros Hnin; [reflexivity|].
  simpl. destruct (String.eqb_spec y x) as [->|Hne].
  - exfalso. apply Hnin. now left.
  - rewrite IH; [reflexivity|]. intros H. apply Hnin. now right.
Qed.

Lemma single_occurrence_split (x : string) (pre post : list string) :
  ~ In x pre ->
  count_occ string_dec (pre ++ x :: post) x = 1%nat ->
  ~ In x (pre ++ post).
Proof.
  intros Hpre Hc. rewrite count_occ_app, count_occ_cons_eq in Hc by reflexivity.
  intros Hin. apply in_app_or in Hin. destruct Hin as [Hin|Hin]; [contradiction|].
  apply (count_occ_In string_dec) in Hin. lia.
Qed.

(** C5 (amended).  Startup succeeds exactly when the name of the local
    node is in the standby list (the stripped lines of the file).  Then
    the priority is the index of its first occurrence and the working
    copy is the list without that occurrence; when the name occurs
    once, the working copy no longer holds it.  When the name is absent,
    a critical line is logged and the process exits with status 1. *)
Theorem main_startup_spec (lines : list string) (n : nat) :
  (In getfqdn (map Py.strip lines) ->
   exists pre post,
     map Py.strip lines = pre ++ getfqdn :: post
     /\ ~ In getfqdn pre
     /\ main_startup getfqdn lines n
        = ([EvLog "tegu_ha v1.0 started"], n,
           Ok (pre ++ post, getfqdn, List.length pre))
     /\ (count_occ string_dec (map Py.strip lines) getfqdn = 1%nat ->
         ~ In getfqdn (pre ++ post)))
  /\ (~ In getfqdn (map Py.strip lines) ->
      main_startup getfqdn lines n
      = ([EvLog "tegu_ha v1.0 started";
          EvLog ("CRI: Could not find host " ++ getfqdn ++ " in standby list: "
                 ++ STDBY_LIST)],
         n, Exn (Py.SystemExit 1))).
Proof.
  split.
  - intros Hin.
    destruct (index_remove_first _ _ Hin) as (pre & post & E & Hpre & Hi & Hr).
    exists pre, post. repeat split; trivial.
    + unfold main_startup, bind, logit, emit. simpl. now rewrite Hi, Hr.
    + rewrite E. now apply single_occurrence_split.
  - intros Hnin. unfold main_startup, bind, crit, logit, emit. simpl.
    now rewrite (index_absent _ _ Hnin).
Qed.

End Startup.

Lemma main_startup_spec_witness :
  (exists pre post,
      map Py.strip ["hostA"; "  hostB "; "hostC"] = pre ++ "hostB" :: post
      /\ ~ In "hostB" pre
      /\ main_startup "hostB" ["hostA"; "  hostB "; "hostC"] 0%nat
         = ([EvLog "tegu_ha v1.0 started"], 0%nat,
            Ok (pre ++ post, "hostB", List.length pre))
      /\ (count_occ string_dec (map Py.strip ["hostA"; "  hostB "; "hostC"]) "hostB"
          = 1%nat -> ~ In "hostB" (pre ++ post)))
  /\ main_startup "hostD" ["hostA"; "  hostB "; "hostC"] 0%nat
     = ([EvLog "tegu_ha v1.0 started";
         EvLog ("CRI: Could not find host " ++ "hostD" ++ " in standby list: "
                ++ STDBY_LIST)],
        0%nat, Exn (Py.SystemExit 1)).
Proof.
  split.
  - apply (proj1 (main_startup_spec "hostB" ["hostA"; "  hostB "; "hostC"] 0%nat)).
    simpl. right. left. reflexivity.
  - apply (proj2 (main_startup_spec "hostD" ["hostA"; "  hostB "; "hostC"] 0%nat)).
    simpl. intros [H|[H|[H|[]]]]; discriminate.
Defined.

(** C5 (as stated) fails: with the local node listed twice startup
    succeeds, with the priority of the first entry, and the second entry
    stays in the working copy. *)
Lemma main_startup_duplicate :
  ~ ((exists cfg, value (main_startup "hostA" ["hostA"; "hostB"; "hostA"] 0%nat) = Ok cfg)
     <-> count_occ string_dec (map Py.strip ["hostA"; "hostB"; "hostA"]) "hostA" = 1%nat).
Proof.
  intros [H _].
  assert (Hex : exists cfg,
             value (main_startup "hostA" ["hostA"; "hostB"; "hostA"] 0%nat) = Ok cfg).
  { exists (["hostB"; "hostA"], "hostA", 0%nat). reflexivity. }
  apply H in Hex. vm_compute in Hex. discriminate.
Qed.

(** ** What a computation can emit *)

Section Emits.

Variable P : event -> bool.

Lemma emits_ret {A : Type} (a : A) : emits P (ret a).
Proof. intros n. reflexivity. Qed.

Lemma emits_raise {A : Type} (e : Py.exn) : emits P (@raise A e).
Proof. intros n. reflexivity. Qed.

Lemma emits_emit (e : event) : P e = true -> emits P (emit e).
Proof. intros H n. unfold emit, trace. simpl. now rewrite H. Qed.

Lemma emits_bind {A B : Type} (m : M A) (f : A -> M B) :
  emits P m -> (forall a, emits P (f a)) -> emits P (bind m f).
Proof.
  intros Hm Hf n. unfold bind. specialize (Hm n).
  destruct (m n) as [[t1 n1] [a|e]]; unfold trace in *; simpl in *; trivial.
  specialize (Hf a n1). destruct (f a n1) as [[t2 n2] r].
  unfold trace in Hf. simpl in *.
  rewrite forallb_app. now rewrite Hm, Hf.
Qed.

Lemma emits_try_except {A : Type} (m h : M A) (handles : Py.exn -> bool) :
  emits P m -> emits P h -> emits P (try_except m handles h).
Proof.
  intros Hm Hh n. unfold try_except. specialize (Hm n).
  destruct (m n) as [[t1 n1] [a|e]]; unfold trace in *; simpl in *; trivial.
  destruct (handles e); simpl; trivial.
  specialize (Hh n1). destruct (h n1) as [[t2 n2] r].
  unfold trace in Hh. simpl in *.
  rewrite forallb_app. now rewrite Hm, Hh.
Qed.

Lemma emits_run_shell sh (c : command) :
  (forall o, P (EvRun c o) = true) -> emits P (run_shell sh c).
Proof. intros H n. unfold run_shell, trace. simpl. now rewrite H. Qed.

Lemma emits_check_call sh (c : command) :
  (forall o, P (EvRun c o) = true) -> emits P (check_call sh c).
Proof.
  intros H. unfold check_call. apply emits_bind; [now apply emits_run_shell|].
  intros o. destruct (status o =? 0); [apply emits_ret | apply emits_raise].
Qed.

Lemma emits_check_output sh (c : command) :
  (forall o, P (EvRun c o) = true) -> emits P (check_output sh c).
Proof.
  intros H. unfold check_output. apply emits_bind; [now apply emits_run_shell|].
  intros o. destruct (status o =? 0); [apply emits_ret | apply emits_raise].
Qed.

End Emits.

Ltac emits_step :=
  match goal with
  | |- emits _ (bind _ _) => apply emits_bind; [| intros ?]
  | |- emits _ (try_except _ _ _) => apply emits_try_except
  | |- emits _ (ret _) => apply emits_ret
  | |- emits _ (raise _) => apply emits_raise
  | |- emits _ (emit _) => apply emits_emit; reflexivity
  | |- emits _ (check_call _ _) => apply emits_check_call; intros ?; reflexivity
  | |- emits _ (check_output _ _) => apply emits_check_output; intros ?; reflexivity
  | |- emits _ (if ?b then _ else _) => destruct b
  | |- emits _ (match ?x with _ => _ end) => destruct x
  end.

Section Quiet.

Variable sh : nat -> command -> outcome.
Variable getfqdn : string.
Variable mktime_strptime : string -> option Z.

Lemma extract_dt_quiet str c1 c2 :
  emits is_quiet (extract_dt mktime_strptime str c1 c2).
Proof.
  unfold extract_dt, extract_dt_handler, logit. repeat emits_step.
Qed.

Lemma should_be_active_quiet host :
  emits is_quiet (should_be_active sh getfqdn mktime_strptime host).
Proof.
  unfold should_be_active, get_checkpoint, warn, logit.
  repeat (emits_step || apply extract_dt_quiet).
Qed.

Lemma check_host_quiet this_node host st :
  emits is_quiet (check_host None sh getfqdn mktime_strptime this_node host st).
Proof.
  unfold check_host, is_active, deactivate_tegu, logit. destruct st as [i a].
  repeat (emits_step || apply should_be_active_quiet).
Qed.

Lemma check_hosts_quiet this_node standby_list :
  forall st, emits is_quiet (check_hosts None sh getfqdn mktime_strptime this_node standby_list st).
Proof.
  induction standby_list as [|host rest IH]; intros st; simpl.
  - apply emits_ret.
  - apply emits_bind; [apply check_host_quiet | exact IH].
Qed.

End Quiet.

(** ** The loop over the standby list *)

Section Hosts.

Variable sh : nat -> command -> outcome.
Variable getfqdn : string.
Variable mktime_strptime : string -> option Z.
Variable this_node : string.

Lemma active_count_app (t1 t2 : list event) :
  active_count (t1 ++ t2) = (active_count t1 + active_count t2)%nat.
Proof. unfold active_count. now rewrite filter_app, length_app. Qed.

Lemma active_count_none (t : list event) :
  active_count t = 0%nat <-> existsb is_ping_ok t = false.
Proof.
  unfold active_count. induction t as [|e t IH]; simpl; [easy|].
  destruct (is_ping_ok e); simpl; [easy | exact IH].
Qed.

Lemma active_count_pos (t : list event) :
  active_count t <> 0%nat -> existsb is_ping_ok t = true.
Proof.
  intros H. destruct (existsb is_ping_ok t) eqn:E; [reflexivity|].
  apply active_count_none in E. contradiction.
Qed.

Lemma quiet_no_activation (t : list event) :
  forallb is_quiet t = true -> existsb is_activation t = false.
Proof.
  induction t as [|e t IH]; simpl; [easy|].
  rewrite andb_true_iff. intros [He Ht]. rewrite (IH Ht).
  unfold is_quiet in He. now destruct (is_activation e), (is_sleep e).
Qed.

Lemma quiet_no_sleep (t : list event) :
  forallb is_quiet t = true -> existsb is_sleep t = false.
Proof.
  induction t as [|e t IH]; simpl; [easy|].
  rewrite andb_true_iff. intros [He Ht]. rewrite (IH Ht).
  unfold is_quiet in He. now destruct (is_sleep e).
Qed.

Lemma pings_have_no_other (Q : event -> bool) (t : list event) :
  (forall e, is_ping e = true -> Q e = false) ->
  forallb is_ping t = true -> existsb Q t = false.
Proof.
  intros HQ. induction t as [|e t IH]; simpl; [easy|].
  rewrite andb_true_iff. intros [He Ht]. now rewrite (HQ e He), (IH Ht).
Qed.

Lemma trace_bind_prefix {A B : Type} (m : M A) (f : A -> M B) n :
  exists t2, trace (bind m f n) = trace (m n) ++ t2.
Proof.
  unfold bind. destruct (m n) as [[t1 n1] [a|e]]; unfold trace; simpl.
  - destruct (f a n1) as [[t2 n2] r]. now exists t2.
  - exists []. now rewrite app_nil_r.
Qed.

Lemma bind_ret_inv {A B : Type} (m : M A) (g : A -> B) n t n1 v :
  bind m (fun x => ret (g x)) n = (t, n1, Ok v) -> exists x, v = g x.
Proof.
  unfold bind. destruct (m n) as [[t1 n2] [a|e]]; simpl; [|discriminate].
  intros H. exists a. congruence.
Qed.

Lemma check_host_self (st : bool * bool) n :
  check_host None sh getfqdn mktime_strptime this_node this_node st n = ([], n, Ok st).
Proof.
  unfold check_host. destruct st as [i a]. now rewrite String.eqb_refl.
Qed.

(** Once the local tegu is not active, a turn is one probe. *)
Lemma check_host_inactive (host : string) (a : bool) n :
  host <> this_node ->
  check_host None sh getfqdn mktime_strptime this_node host (false, a) n
  = ([EvRun (Ping host) (sh n (Ping host))], S n,
     Ok (false, a || (status (sh n (Ping host)) =? 0))).
Proof.
  intros Hne. apply String.eqb_neq in Hne.
  unfold check_host. rewrite Hne. unfold bind. rewrite is_active_run. reflexivity.
Qed.

(** A peer that does not answer is one probe as well. *)
Lemma check_host_peer_down (host : string) (a : bool) n :
  host <> this_node ->
  status (sh n (Ping host)) <> 0 ->
  check_host None sh getfqdn mktime_strptime this_node host (true, a) n
  = ([EvRun (Ping host) (sh n (Ping host))], S n, Ok (true, a)).
Proof.
  intros Hne Hdown. apply String.eqb_neq in Hne. apply Z.eqb_neq in Hdown.
  unfold check_host. rewrite Hne. unfold bind. rewrite is_active_run, Hdown.
  simpl. now rewrite orb_false_r.
Qed.

Lemma check_host_trace_head (host : string) (st : bool * bool) n :
  host <> this_node ->
  exists t2,
    trace (check_host None sh getfqdn mktime_strptime this_node host st n)
    = EvRun (Ping host) (sh n (Ping host)) :: t2.
Proof.
  intros Hne. apply String.eqb_neq in Hne.
  unfold check_host. destruct st as [i a]. rewrite Hne.
  rewrite (bind_Ok _ _ _ _ _ _ (is_active_run sh host n)).
  unfold trace at 1. simpl. now eexists.
Qed.

Lemma check_host_any_stays (host : string) (i : bool) n t n1 st :
  check_host None sh getfqdn mktime_strptime this_node host (i, true) n = (t, n1, Ok st) ->
  snd st = true.
Proof.
  unfold check_host. destruct (String.eqb host this_node).
  - intros H. inversion H. reflexivity.
  - unfold bind at 1. rewrite is_active_run.
    match goal with
    | |- context [bind ?m ?k (S n)] => destruct (bind m k (S n)) as [[t2 n2] r] eqn:E
    end.
    intros H. inversion H; subst. apply bind_ret_inv in E.
    destruct E as [x ->]. reflexivity.
Qed.

Lemma check_hosts_any_stays (standby_list : list string) :
  forall i n t n1 st,
    check_hosts None sh getfqdn mktime_strptime this_node standby_list (i, true) n
    = (t, n1, Ok st) ->
    snd st = true.
Proof.
  induction standby_list as [|host rest IH]; intros i n t n1 st; cbn [check_hosts].
  - intros H. inversion H. reflexivity.
  - unfold bind.
    destruct (check_host None sh getfqdn mktime_strptime this_node host (i, true) n)
      as [[t1 n2] [[i' a']|e]] eqn:E; [|discriminate].
    apply check_host_any_stays in E. simpl in E. subst a'.
    destruct (check_hosts None sh getfqdn mktime_strptime this_node rest (i', true) n2)
      as [[t2 n3] r] eqn:E2.
    intros H. inversion H; subst. now apply IH in E2.
Qed.

(** With the local tegu not active the loop only probes, never raises,
    and reports whether a probe found a tegu. *)
Lemma check_hosts_inactive (standby_list : list string) :
  forall a n, exists t n1,
    check_hosts None sh getfqdn mktime_strptime this_node standby_list (false, a) n
    = (t, n1, Ok (false, a || existsb is_ping_ok t))
    /\ forallb is_ping t = true.
Proof.
  induction standby_list as [|host rest IH]; intros a n; cbn [check_hosts].
  - exists [], n. now rewrite orb_false_r.
  - destruct (String.eqb_spec host this_node) as [->|Hne].
    + destruct (IH a n) as (t & n1 & E & Hp).
      exists t, n1. split; [|exact Hp].
      rewrite (bind_Ok _ _ _ _ _ _ (check_host_self _ _)), E. reflexivity.
    + destruct (IH (a || (status (sh n (Ping host)) =? 0)) (S n)) as (t & n1 & E & Hp).
      exists (EvRun (Ping host) (sh n (Ping host)) :: t), n1. split.
      * rewrite (bind_Ok _ _ _ _ _ _ (check_host_inactive _ _ _ Hne)), E.
        unfold trace, value. simpl. now rewrite orb_assoc.
      * simpl. exact Hp.
Qed.

(** With the local tegu active and no probe of a peer answered, the
    loop only probed and changed nothing. *)
Lemma check_hosts_active_alone (standby_list : list string) :
  forall a n,
    active_count
      (trace (check_hosts None sh getfqdn mktime_strptime this_node standby_list (true, a) n))
    = 0%nat ->
    exists t n1,
      check_hosts None sh getfqdn mktime_strptime this_node standby_list (true, a) n
      = (t, n1, Ok (true, a))
      /\ forallb is_ping t = true.
Proof.
  induction standby_list as [|host rest IH]; intros a n; cbn [check_hosts].
  - intros _. now exists [], n.
  - destruct (String.eqb_spec host this_node) as [->|Hne].
    + rewrite (bind_Ok _ _ _ _ _ _ (check_host_self _ _)). simpl.
      rewrite <- run_eta. apply IH.
    + destruct (Z.eqb_spec (status (sh n (Ping host))) 0) as [Hup|Hdown].
      * intros H. exfalso.
        match type of H with
        | context [trace (bind ?m ?f ?k)] =>
            destruct (trace_bind_prefix m f k) as [t2 E]
        end.
        destruct (check_host_trace_head host (true, a) n Hne) as [t3 E3].
        rewrite E, E3 in H. rewrite active_count_app in H.
        unfold active_count in H. simpl in H.
        apply Z.eqb_eq in Hup. rewrite Hup in H. simpl in H. lia.
      * rewrite (bind_Ok _ _ _ _ _ _ (check_host_peer_down _ _ _ Hne Hdown)).
        unfold trace at 1. simpl. intros H.
        unfold active_count in H. simpl in H.
        apply Z.eqb_neq in Hdown. rewrite Hdown in H.
        destruct (IH a (S n) H) as (t & n1 & E & Hp).
        exists (EvRun (Ping host) (sh n (Ping host)) :: t), n1.
        rewrite E. split; [reflexivity | exact Hp].
Qed.

End Hosts.

(** ** One turn of [main_loop] *)

Section Cycle.

Variable sh : nat -> command -> outcome.
Variable getfqdn : string.
Variable mktime_strptime : string -> option Z.
Variable this_node : string.
Variable standby_list : list string.
Variable priority : nat.

(** A turn, in terms of its loop over the standby list. *)
Lemma cycle_run (pw : bool) (n : nat) :
  cycle None sh getfqdn mktime_strptime standby_list this_node priority pw n
  = let o := sh n (Ping "localhost") in
    let hosts :=
      check_hosts None sh getfqdn mktime_strptime this_node standby_list
        (status o =? 0, status o =? 0) (S n) in
    let head :=
      EvSleep (cycle_delay priority pw) :: EvRun (Ping "localhost") o :: trace hosts in
    let n1 := snd (fst hosts) in
    match value hosts with
    | Exn e => (head, n1, Exn e)
    | Ok st =>
        if snd st then (head, n1, Ok pw)
        else if pw || (priority =? 0)%nat then
          (head ++ [EvLog "no running tegu found, starting here";
                    EvRun (Activate EmptyString) (sh n1 (Activate EmptyString))],
           S n1, Ok false)
        else (head, n1, Ok true)
    end.
Proof.
  unfold cycle, cycle_delay.
  assert (Hs : forall k,
             (if negb pw then sleep HEARTBEAT_SEC
              else sleep (PRI_WAIT_SEC * Z.of_nat priority)) k
             = ([EvSleep (if pw then PRI_WAIT_SEC * Z.of_nat priority
                          else HEARTBEAT_SEC)], k, Ok tt)).
  { intros k. now destruct pw. }
  rewrite (bind_Ok _ _ _ _ _ _ (Hs n)).
  rewrite (bind_Ok _ _ _ _ _ _ (is_active_run sh "localhost" n)).
  cbv zeta.
  destruct (check_hosts None sh getfqdn mktime_strptime this_node standby_list
              (status (sh n (Ping "localhost")) =? 0,
               status (sh n (Ping "localhost")) =? 0) (S n))
    as [[t n1] [[i a]|e]] eqn:E.
  - rewrite (bind_Ok _ _ _ _ _ _ E). unfold trace, value. simpl.
    destruct a; simpl.
    + now rewrite app_nil_r.
    + destruct (pw || (priority =? 0)%nat); simpl.
      * unfold bind, logit, emit. rewrite activate_tegu_run. reflexivity.
      * now rewrite app_nil_r.
  - rewrite (bind_Exn _ _ _ _ _ _ E). reflexivity.
Qed.

Lemma active_count_cons (e : event) (t : list event) :
  active_count (e :: t) = ((if is_ping_ok e then 1 else 0) + active_count t)%nat.
Proof. unfold active_count. simpl. now destruct (is_ping_ok e). Qed.

Lemma cycle_count (pw : bool) (n : nat) :
  active_count
    (trace (cycle None sh getfqdn mktime_strptime standby_list this_node priority pw n))
  = Nat.add
      (if status (sh n (Ping "localhost")) =? 0 then 1%nat else 0%nat)
      (active_count
         (trace (check_hosts None sh getfqdn mktime_strptime this_node standby_list
                   (status (sh n (Ping "localhost")) =? 0,
                    status (sh n (Ping "localhost")) =? 0) (S n)))).
Proof.
  rewrite cycle_run. cbv zeta.
  match goal with
  | |- context [value ?h] => destruct (value h) as [st|e]
  end.
  - destruct (snd st); [| destruct (pw || (priority =? 0)%nat)];
      unfold trace at 1; simpl;
      rewrite !active_count_cons, ?active_count_app, ?active_count_cons; simpl;
      try change (active_count []) with 0%nat; lia.
  - unfold trace at 1. simpl. rewrite !active_count_cons. simpl. lia.
Qed.

(** The sleep that opens a turn is its only sleep. *)
Lemma cycle_sleeps_once (pw : bool) (n : nat) :
  exists rest,
    trace (cycle None sh getfqdn mktime_strptime standby_list this_node priority pw n)
    = EvSleep (cycle_delay priority pw) :: rest
    /\ existsb is_sleep rest = false.
Proof.
  rewrite cycle_run. cbv zeta.
  match goal with
  | |- context [value ?h] =>
      pose proof (check_hosts_quiet sh getfqdn mktime_strptime this_node standby_list
                    (status (sh n (Ping "localhost")) =? 0,
                     status (sh n (Ping "localhost")) =? 0) (S n)) as Hq;
      apply quiet_no_sleep in Hq;
      destruct (value h) as [st|e]
  end.
  - destruct (snd st); [| destruct (pw || (priority =? 0)%nat)];
      unfold trace at 1; simpl; eexists; (split; [reflexivity|]);
      simpl; rewrite ?existsb_app, Hq; reflexivity.
  - unfold trace at 1. simpl. eexists. split; [reflexivity|]. simpl. exact Hq.
Qed.

(** A turn in which no probe answered. *)
Lemma cycle_none_active_run (pw : bool) (n : nat) :
  active_count
    (trace (cycle None sh getfqdn mktime_strptime standby_list this_node priority pw n))
  = 0%nat ->
  exists polls n1,
    forallb is_ping polls = true
    /\ cycle None sh getfqdn mktime_strptime standby_list this_node priority pw n
       = if pw || (priority =? 0)%nat
         then (EvSleep (cycle_delay priority pw)
                 :: polls ++ [EvLog "no running tegu found, starting here";
                              EvRun (Activate EmptyString) (sh n1 (Activate EmptyString))],
               S n1, Ok false)
         else (EvSleep (cycle_delay priority pw) :: polls, n1, Ok true).
Proof.
  intros H. rewrite cycle_count in H.
  rewrite cycle_run. cbv zeta.
  destruct (status (sh n (Ping "localhost")) =? 0) eqn:E; [lia|].
  destruct (check_hosts_inactive sh getfqdn mktime_strptime this_node standby_list
              false (S n)) as (t & n1 & Eh & Hp).
  rewrite Eh in *. unfold trace, value in *. simpl in *.
  apply active_count_none in H. rewrite H. simpl.
  exists (EvRun (Ping "localhost") (sh n (Ping "localhost")) :: t), n1.
  split; [exact Hp|].
  destruct (pw || (priority =? 0)%nat); reflexivity.
Qed.

(** A turn in which exactly one probe answered: probes only, and
    [priority_wait] is left as it was. *)
Lemma cycle_single_active_run (pw : bool) (n : nat) :
  active_count
    (trace (cycle None sh getfqdn mktime_strptime standby_list this_node priority pw n))
  = 1%nat ->
  exists polls n1,
    forallb is_ping polls = true
    /\ cycle None sh getfqdn mktime_strptime standby_list this_node priority pw n
       = (EvSleep (cycle_delay priority pw) :: polls, n1, Ok pw).
Proof.
  intros H. rewrite cycle_count in H.
  rewrite cycle_run. cbv zeta.
  destruct (status (sh n (Ping "localhost")) =? 0) eqn:E.
  - assert (H0 : active_count
                   (trace (check_hosts None sh getfqdn mktime_strptime this_node
                             standby_list (true, true) (S n))) = 0%nat) by lia.
    destruct (check_hosts_active_alone sh getfqdn mktime_strptime this_node
                standby_list true (S n) H0) as (t & n1 & Eh & Hp).
    rewrite Eh. unfold trace, value. simpl.
    exists (EvRun (Ping "localhost") (sh n (Ping "localhost")) :: t), n1.
    split; [exact Hp | reflexivity].
  - destruct (check_hosts_inactive sh getfqdn mktime_strptime this_node standby_list
                false (S n)) as (t & n1 & Eh & Hp).
    rewrite Eh in *. unfold trace, value in *. simpl in *.
    rewrite active_count_pos by lia. simpl.
    exists (EvRun (Ping "localhost") (sh n (Ping "localhost")) :: t), n1.
    split; [exact Hp | reflexivity].
Qed.

(** Such a turn invokes no conflict resolution and issues no activate
    or deactivate command. *)
Lemma cycle_single_active_quiet (pw : bool) (n : nat) :
  active_count
    (trace (cycle None sh getfqdn mktime_strptime standby_list this_node priority pw n))
  = 1%nat ->
  existsb is_resolution
    (trace (cycle None sh getfqdn mktime_strptime standby_list this_node priority pw n))
  = false
  /\ existsb is_lifecycle
       (trace (cycle None sh getfqdn mktime_strptime standby_list this_node priority pw n))
     = false
  /\ value (cycle None sh getfqdn mktime_strptime standby_list this_node priority pw n)
     = Ok pw.
Proof.
  intros H. destruct (cycle_single_active_run pw n H) as (polls & n1 & Hp & E).
  rewrite E. unfold trace, value. simpl. repeat split.
  - apply pings_have_no_other; [|exact Hp]. intros [ | |[]]; simpl; congruence.
  - apply pings_have_no_other; [|exact Hp]. intros [ | |[]]; simpl; congruence.
Qed.

(** The local tegu is activated in a turn exactly when no probe of the
    turn answered and the turn was entered waiting or with priority 0. *)
Lemma cycle_activation_iff (pw : bool) (n : nat) :
  existsb is_activation
    (trace (cycle None sh getfqdn mktime_strptime standby_list this_node priority pw n))
  = true
  <-> active_count
        (trace (cycle None sh getfqdn mktime_strptime standby_list this_node priority pw n))
      = 0%nat
      /\ pw || (priority =? 0)%nat = true.
Proof.
  split.
  - intros Hact. split.
    + rewrite cycle_count. rewrite cycle_run in Hact. cbv zeta in Hact.
      pose proof (check_hosts_quiet sh getfqdn mktime_strptime this_node standby_list
                    (status (sh n (Ping "localhost")) =? 0,
                     status (sh n (Ping "localhost")) =? 0) (S n)) as Hq.
      apply quiet_no_activation in Hq.
      destruct (check_hosts None sh getfqdn mktime_strptime this_node standby_list
                  (status (sh n (Ping "localhost")) =? 0,
                   status (sh n (Ping "localhost")) =? 0) (S n))
        as [[t n1] [[i a]|e]] eqn:Eh;
        unfold trace, value in *; simpl in *.
      * destruct a; simpl in Hact; [congruence|].
        destruct (status (sh n (Ping "localhost")) =? 0) eqn:E.
        -- apply check_hosts_any_stays in Eh. discriminate.
        -- destruct (check_hosts_inactive sh getfqdn mktime_strptime this_node
                       standby_list false (S n)) as (t' & n' & Eh' & _).
           rewrite Eh in Eh'. injection Eh' as Et En Ei Ea. subst t'.
           simpl in Ea. symmetry in Ea. apply active_count_none in Ea. lia.
      * congruence.
    + rewrite cycle_run in Hact. cbv zeta in Hact.
      pose proof (check_hosts_quiet sh getfqdn mktime_strptime this_node standby_list
                    (status (sh n (Ping "localhost")) =? 0,
                     status (sh n (Ping "localhost")) =? 0) (S n)) as Hq.
      apply quiet_no_activation in Hq.
      destruct (check_hosts None sh getfqdn mktime_strptime this_node standby_list
                  (status (sh n (Ping "localhost")) =? 0,
                   status (sh n (Ping "localhost")) =? 0) (S n))
        as [[t n1] [[i a]|e]] eqn:Eh;
        unfold trace, value in *; simpl in *; [|congruence].
      destruct a; simpl in Hact; [congruence|].
      destruct (pw || (priority =? 0)%nat); [reflexivity|].
      simpl in Hact. congruence.
  - intros [H0 Hc].
    destruct (cycle_none_active_run pw n H0) as (polls & n1 & Hp & E).
    rewrite E, Hc. unfold trace. simpl.
    rewrite existsb_app. simpl. apply orb_true_r.
Qed.

End Cycle.

(** ** The probes of a turn, one by one *)

Section Probes.

Variable sh : nat -> command -> outcome.
Variable getfqdn : string.
Variable mktime_strptime : string -> option Z.
Variable this_node : string.

(** With [TEGU_PORT] set in the environment the first probe of a turn
    raises while it builds its command line: the turn is its opening
    sleep and nothing else. *)
Lemma cycle_port_set (port : string) (standby_list : list string) (priority : nat)
    (pw : bool) (n : nat) :
  cycle (Some port) sh getfqdn mktime_strptime standby_list this_node priority pw n
  = ([EvSleep (cycle_delay priority pw)], n, Exn Py.TypeError).
Proof. unfold cycle, cycle_delay. destruct pw; reflexivity. Qed.

Lemma loop_from_port_set (port : string) (standby_list : list string) (priority : nat)
    (fuel : nat) (pw : bool) (n : nat) :
  loop_from (Some port) sh getfqdn mktime_strptime standby_list this_node priority
    (S fuel) pw n
  = ([EvSleep (cycle_delay priority pw)], n, Exn Py.TypeError).
Proof.
  cbn [loop_from]. now rewrite (bind_Exn _ _ _ _ _ _ (cycle_port_set port _ _ _ _)).
Qed.

Lemma peers_of_cons_self (rest : list string) :
  peers_of this_node (this_node :: rest) = peers_of this_node rest.
Proof. unfold peers_of. simpl. now rewrite String.eqb_refl. Qed.

Lemma peers_of_cons_other (host : string) (rest : list string) :
  host <> this_node ->
  peers_of this_node (host :: rest) = host :: peers_of this_node rest.
Proof.
  intros Hne. apply String.eqb_neq in Hne. unfold peers_of. simpl. now rewrite Hne.
Qed.

(** With the local tegu not active, the loop over the standby list is
    the probe of every entry other than [this_node], in list order, one
    shell invocation each. *)
Lemma check_hosts_probes (standby_list : list string) :
  forall a n,
    check_hosts None sh getfqdn mktime_strptime this_node standby_list (false, a) n
    = (probe_events sh n (peers_of this_node standby_list),
       (n + List.length (peers_of this_node standby_list))%nat,
       Ok (false,
           a || existsb is_ping_ok (probe_events sh n (peers_of this_node standby_list)))).
Proof.
  induction standby_list as [|host rest IH]; intros a n; cbn [check_hosts].
  - simpl. now rewrite Nat.add_0_r, orb_false_r.
  - destruct (String.eqb_spec host this_node) as [->|Hne].
    + rewrite (bind_Ok _ _ _ _ _ _ (check_host_self _ _ _ _ _ _)), IH.
      rewrite peers_of_cons_self. reflexivity.
    + rewrite (bind_Ok _ _ _ _ _ _ (check_host_inactive _ _ _ _ _ _ _ Hne)), IH.
      rewrite (peers_of_cons_other _ _ Hne). unfold trace, value. simpl.
      now rewrite orb_assoc, Nat.add_succ_r.
Qed.

(** A turn in which the local tegu does not answer: the sleep, the
    probe of localhost and of every peer, and then the choice on
    whether any of them answered. *)
Lemma cycle_local_down (standby_list : list string) (priority : nat) (pw : bool)
    (n : nat) :
  status (sh n (Ping "localhost")) <> 0 ->
  cycle None sh getfqdn mktime_strptime standby_list this_node priority pw n
  = let polls := probe_events sh n ("localhost" :: peers_of this_node standby_list) in
    let n1 := S (n + List.length (peers_of this_node standby_list)) in
    if existsb is_ping_ok polls then (EvSleep (cycle_delay priority pw) :: polls, n1, Ok pw)
    else if pw || (priority =? 0)%nat then
      (EvSleep (cycle_delay priority pw)
         :: polls ++ [EvLog "no running tegu found, starting here";
                      EvRun (Activate EmptyString) (sh n1 (Activate EmptyString))],
       S n1, Ok false)
    else (EvSleep (cycle_delay priority pw) :: polls, n1, Ok true).
Proof.
  intros Hdown. apply Z.eqb_neq in Hdown.
  rewrite cycle_run. cbv zeta. rewrite Hdown, check_hosts_probes.
  unfold trace, value. cbn [fst snd probe_events existsb is_ping_ok].
  rewrite Hdown. cbn [orb].
  destruct (existsb is_ping_ok
              (probe_events sh (S n) (peers_of this_node standby_list))); [reflexivity|].
  destruct (pw || (priority =? 0)%nat); reflexivity.
Qed.

End Probes.

(** ** Split brain *)

Section SplitBrain.

Variable sh : nat -> command -> outcome.
Variable getfqdn : string.
Variable mktime_strptime : string -> option Z.
Variable this_node : string.


(** When [should_be_active] raises, so does the turn of the loop. *)
Lemma check_host_split_raises (host : string) (a : bool) (n n1 : nat)
    (t : list event) (e : Py.exn) :
  host <> this_node ->
  status (sh n (Ping host)) = 0 ->
  should_be_active sh getfqdn mktime_strptime host (S n) = (t, n1, Exn e) ->
  check_host None sh getfqdn mktime_strptime this_node host (true, a) n
  = (EvRun (Ping host) (sh n (Ping host)) :: EvLog "checking for split" :: t,
     n1, Exn e).
Proof.
  intros Hne Hup Hres.
  apply String.eqb_neq in Hne. apply Z.eqb_eq in Hup.
  unfold check_host. rewrite Hne.
  rewrite (bind_Ok _ _ _ _ _ _ (is_active_run sh host n)).
  rewrite Hup. cbn [andb].
  unfold bind, logit, emit. rewrite Hres. reflexivity.
Qed.

(** An exception in a turn ends the loop. *)
Lemma loop_from_raises (standby_list : list string) (priority fuel : nat)
    (pw : bool) (n n1 : nat) (t : list event) (e : Py.exn) :
  cycle None sh getfqdn mktime_strptime standby_list this_node priority pw n
  = (t, n1, Exn e) ->
  loop_from None sh getfqdn mktime_strptime standby_list this_node priority (S fuel) pw n
  = (t, n1, Exn e).
Proof. intros H. cbn [loop_from]. now rewrite (bind_Exn _ _ _ _ _ _ H). Qed.

Lemma cycle_split_raises (host : string) (rest : list string) (priority : nat)
    (pw : bool) (n n1 : nat) (t : list event) (e : Py.exn) :
  host <> this_node ->
  status (sh n (Ping "localhost")) = 0 ->
  status (sh (S n) (Ping host)) = 0 ->
  should_be_active sh getfqdn mktime_strptime host (S (S n)) = (t, n1, Exn e) ->
  cycle None sh getfqdn mktime_strptime (host :: rest) this_node priority pw n
  = (EvSleep (cycle_delay priority pw)
       :: EvRun (Ping "localhost") (sh n (Ping "localhost"))
       :: EvRun (Ping host) (sh (S n) (Ping host))
       :: EvLog "checking for split" :: t,
     n1, Exn e).
Proof.
  intros Hne Hself Hup Hres.
  rewrite cycle_run. cbv zeta.
  apply Z.eqb_eq in Hself. rewrite Hself.
  cbn [check_hosts].
  rewrite (bind_Exn _ _ _ _ _ _
             (check_host_split_raises host true (S n) n1 t e Hne Hup Hres)).
  reflexivity.
Qed.

(** C9 (what the code does).  [TEGU_PORT] is not set.  The local tegu
    and the first peer both answer, both pulls work, and the remote clock is read but prints no
    number: [int] raises [ValueError], nothing catches it, and
    [main_loop] ends in its first turn. *)
Theorem main_loop_stops_on_bad_clock (host : string) (rest : list string)
    (priority fuel n : nat) :
  host <> this_node ->
  status (sh n (Ping "localhost")) = 0 ->
  status (sh (1 + n) (Ping host)) = 0 ->
  status (sh (2 + n) (Sync host)) = 0 ->
  status (sh (3 + n) (Sync EmptyString)) = 0 ->
  status (sh (4 + n) (DateRemote host)) = 0 ->
  Py.int (stdout (sh (4 + n) (DateRemote host))) = None ->
  main_loop None sh getfqdn mktime_strptime (host :: rest) this_node priority (S fuel) n
  = ([EvSleep HEARTBEAT_SEC;
      EvRun (Ping "localhost") (sh n (Ping "localhost"));
      EvRun (Ping host) (sh (1 + n) (Ping host));
      EvLog "checking for split";
      EvRun (Sync host) (sh (2 + n) (Sync host));
      EvRun (Sync EmptyString) (sh (3 + n) (Sync EmptyString));
      EvLog ("checking clock skew: " ++ ssh_cmd host ++ "date +%s");
      EvRun (DateRemote host) (sh (4 + n) (DateRemote host))],
     (5 + n)%nat, Exn Py.ValueError).
Proof.
  intros Hne Hself Hup S0 S1 S2 I2.
  unfold main_loop. apply loop_from_raises.
  rewrite (cycle_split_raises host rest priority false n (5 + n) _ Py.ValueError
             Hne Hself Hup
             (should_be_active_bad_clock sh getfqdn mktime_strptime host (2 + n)
                S0 S1 S2 I2)).
  reflexivity.
Qed.

(** The same end through the missing checkpoint of C6. *)
Lemma main_loop_stops_on_no_checkpoint (host short : string) (rest : list string)
    (priority fuel n : nat) (time_r time_l : Z) :
  host <> this_node ->
  Py.getitem (Py.split_sep host "."%char) 0 = Some short ->
  status (sh n (Ping "localhost")) = 0 ->
  status (sh (1 + n) (Ping host)) = 0 ->
  status (sh (2 + n) (Sync host)) = 0 ->
  status (sh (3 + n) (Sync EmptyString)) = 0 ->
  status (sh (4 + n) (DateRemote host)) = 0 ->
  Py.int (stdout (sh (4 + n) (DateRemote host))) = Some time_r ->
  status (sh (5 + n) DateLocal) = 0 ->
  Py.int (stdout (sh (5 + n) DateLocal)) = Some time_l ->
  status (sh (6 + n) (ListRemote short)) = 0 ->
  status (sh (7 + n) ListLocal) = 0 ->
  stdout (sh (6 + n) (ListRemote short)) = EmptyString
  \/ stdout (sh (7 + n) ListLocal) = EmptyString ->
  value (main_loop None sh getfqdn mktime_strptime (host :: rest) this_node priority
           (S fuel) n)
  = Exn (Py.NameError "false").
Proof.
  intros Hne E Hself Hup S0 S1 S2 I2 S3 I3 S4 S5 Hempty.
  unfold main_loop.
  erewrite loop_from_raises; [reflexivity|].
  eapply cycle_split_raises; try eassumption.
  apply (should_be_active_empty_listing sh getfqdn mktime_strptime host short
           (2 + n) time_r time_l); assumption.
Qed.

End SplitBrain.


Lemma main_loop_stops_on_bad_clock_witness :
  main_loop None Examples.sh_banner "hostA" Examples.no_time ["hostB"; "hostC"] "hostA"
    0 5 0%nat
  = ([EvSleep HEARTBEAT_SEC;
      EvRun (Ping "localhost") Examples.done;
      EvRun (Ping "hostB") Examples.done;
      EvLog "checking for split";
      EvRun (Sync "hostB") Examples.done;
      EvRun (Sync EmptyString) Examples.done;
      EvLog ("checking clock skew: " ++ ssh_cmd "hostB" ++ "date +%s");
      EvRun (DateRemote "hostB") (mkOutcome 0 "Last login: Fri Jan 30")],
     5%nat, Exn Py.ValueError).
Proof.
  apply (main_loop_stops_on_bad_clock Examples.sh_banner "hostA" Examples.no_time "hostA"
           "hostB" ["hostC"] 0 4 0%nat); try reflexivity.
  discriminate.
Defined.

(** ** The turn after a wait that a peer ended *)

(** C4 (what the code does).  Node hostC has priority 2 and
    [TEGU_PORT] is not set.  In the first turn nothing answers and
    [priority_wait] is set.  In the second turn exactly one node,
    hostA, answers: the turn only probes, but it
    leaves [priority_wait] set, so the loop does not go back to the
    heartbeat: the next polls come after [PRI_WAIT_SEC * 2] = 10
    seconds, not after [HEARTBEAT_SEC] = 5. *)
Theorem main_loop_stale_priority_wait :
  active_count
    (trace (cycle None (Examples.sh_peer_from 4 "hostA") "hostC" Examples.no_time
              ["hostA"; "hostB"] "hostC" 2 true 3%nat)) = 1%nat
  /\ main None (Examples.sh_peer_from 4 "hostA") "hostC" Examples.no_time
       ["hostA"; "hostB"; "hostC"] 4 0%nat
     = ([EvLog "tegu_ha v1.0 started";
         EvSleep HEARTBEAT_SEC;
         EvRun (Ping "localhost") Examples.failed;
         EvRun (Ping "hostA") Examples.failed;
         EvRun (Ping "hostB") Examples.failed;
         EvSleep (PRI_WAIT_SEC * 2);
         EvRun (Ping "localhost") Examples.failed;
         EvRun (Ping "hostA") Examples.done;
         EvRun (Ping "hostB") Examples.failed;
         EvSleep (PRI_WAIT_SEC * 2);
         EvRun (Ping "localhost") Examples.failed;
         EvRun (Ping "hostA") Examples.done;
         EvRun (Ping "hostB") Examples.failed;
         EvSleep (PRI_WAIT_SEC * 2);
         EvRun (Ping "localhost") Examples.failed;
         EvRun (Ping "hostA") Examples.done;
         EvRun (Ping "hostB") Examples.failed],
        12%nat, Ok true)
  /\ PRI_WAIT_SEC * 2 <> HEARTBEAT_SEC.
Proof.
  split; [reflexivity|]. split; [reflexivity|]. discriminate.
Qed.

(** ** A turn with no node active, after a wait that a peer ended *)

(** C3 (what the code does).  Node hostC has priority 2 and
    [TEGU_PORT] is not set.  In the first turn nothing answers and
    [priority_wait] is set.  In the second turn, after the wait of
    [PRI_WAIT_SEC * 2] seconds, hostA answers: one node is active, the
    turn only probes, does not enter the waiting state, and leaves
    [priority_wait] as it was.  In the third turn again no node answers.
    The turn before it did not enter the waiting state and the priority
    is not 0, yet the third turn does not start a wait: it activates the
    local tegu at once, on the flag that the first turn had set. *)
Theorem main_loop_activates_on_stale_wait :
  cycle None (Examples.sh_only 4) "hostC" Examples.no_time ["hostA"; "hostB"] "hostC"
    2 true 3%nat
  = ([EvSleep (PRI_WAIT_SEC * 2);
      EvRun (Ping "localhost") Examples.failed;
      EvRun (Ping "hostA") Examples.done;
      EvRun (Ping "hostB") Examples.failed],
     6%nat, Ok true)
  /\ active_count
       (trace (cycle None (Examples.sh_only 4) "hostC" Examples.no_time
                 ["hostA"; "hostB"] "hostC" 2 true 6%nat)) = 0%nat
  /\ main None (Examples.sh_only 4) "hostC" Examples.no_time
       ["hostA"; "hostB"; "hostC"] 3 0%nat
     = ([EvLog "tegu_ha v1.0 started";
         EvSleep HEARTBEAT_SEC;
         EvRun (Ping "localhost") Examples.failed;
         EvRun (Ping "hostA") Examples.failed;
         EvRun (Ping "hostB") Examples.failed;
         EvSleep (PRI_WAIT_SEC * 2);
         EvRun (Ping "localhost") Examples.failed;
         EvRun (Ping "hostA") Examples.done;
         EvRun (Ping "hostB") Examples.failed;
         EvSleep (PRI_WAIT_SEC * 2);
         EvRun (Ping "localhost") Examples.failed;
         EvRun (Ping "hostA") Examples.failed;
         EvRun (Ping "hostB") Examples.failed;
         EvLog "no running tegu found, starting here";
         EvRun (Activate EmptyString) Examples.failed],
        10%nat, Ok false)
  /\ (2 =? 0)%nat = false.
Proof.
  split; [reflexivity|]. split; [reflexivity|]. split; reflexivity.
Qed.

(** ** Conflict resolution, the other paths *)

Section ResolutionPaths.

Variable sh : nat -> command -> outcome.
Variable getfqdn : string.
Variable mktime_strptime : string -> option Z.

Lemma extract_dt_needs_tokens (c1 c2 : Z) (k k' : nat) (t : list event) (ts : Z) :
  extract_dt mktime_strptime EmptyString c1 c2 k <> (t, k', Ok ts).
Proof.
  unfold extract_dt, extract_dt_handler, try_except, Py.split. simpl.
  unfold Py.getitem. simpl.
  destruct ((0 <=? c2) && (c2 <? 0)); simpl;
    destruct ((- 0 <=? c2) && (c2 <? 0)); simpl;
    destruct ((0 <=? c1) && (c1 <? 0)); simpl;
    destruct ((- 0 <=? c1) && (c1 <? 0)); simpl;
    try discriminate;
    destruct (Z.to_nat c2); simpl; try discriminate;
    destruct (Z.to_nat c1); simpl; discriminate.
Qed.

(** X1.  When both pulls work, both clocks are read as numbers and
    both listings give a time stamp, [should_be_active] runs these six
    commands and no other, and answers with the comparison of the two
    time stamps under the skew [time_l - time_r]. *)
Theorem should_be_active_decides (host short : string) (n : nat)
    (time_r time_l ts_r ts_l : Z) (log_r log_l : list event) :
  Py.getitem (Py.split_sep host "."%char) 0 = Some short ->
  status (sh n (Sync host)) = 0 ->
  status (sh (1 + n) (Sync EmptyString)) = 0 ->
  status (sh (2 + n) (DateRemote host)) = 0 ->
  Py.int (stdout (sh (2 + n) (DateRemote host))) = Some time_r ->
  status (sh (3 + n) DateLocal) = 0 ->
  Py.int (stdout (sh (3 + n) DateLocal)) = Some time_l ->
  status (sh (4 + n) (ListRemote short)) = 0 ->
  status (sh (5 + n) ListLocal) = 0 ->
  extract_dt mktime_strptime (stdout (sh (4 + n) (ListRemote short))) 3 4 (6 + n)%nat
  = (log_r, (6 + n)%nat, Ok ts_r) ->
  extract_dt mktime_strptime (stdout (sh (5 + n) ListLocal)) 5 6 (6 + n)%nat
  = (log_l, (6 + n)%nat, Ok ts_l) ->
  should_be_active sh getfqdn mktime_strptime host n
  = (EvRun (Sync host) (sh n (Sync host))
       :: EvRun (Sync EmptyString) (sh (1 + n) (Sync EmptyString))
       :: EvLog ("checking clock skew: " ++ ssh_cmd host ++ "date +%s")
       :: EvRun (DateRemote host) (sh (2 + n) (DateRemote host))
       :: EvRun DateLocal (sh (3 + n) DateLocal)
       :: EvRun (ListRemote short) (sh (4 + n) (ListRemote short))
       :: EvRun ListLocal (sh (5 + n) ListLocal)
       :: log_r ++ log_l,
     (6 + n)%nat,
     Ok (remote_is_newer ts_r (time_l - time_r) ts_l host getfqdn)).
Proof.
  intros E S0 S1 S2 I2 S3 I3 S4 S5 Hr Hl.
  apply Z.eqb_eq in S0, S1, S2, S3, S4, S5.
  assert (Nr : Py.is_empty (stdout (sh (4 + n) (ListRemote short))) = false).
  { destruct (stdout (sh (4 + n) (ListRemote short))); [|reflexivity].
    now apply extract_dt_needs_tokens in Hr. }
  assert (Nl : Py.is_empty (stdout (sh (5 + n) ListLocal)) = false).
  { destruct (stdout (sh (5 + n) ListLocal)); [|reflexivity].
    now apply extract_dt_needs_tokens in Hl. }
  simpl plus in *.
  unfold should_be_active. rewrite E.
  unfold bind, try_except.
  rewrite get_checkpoint_run, S0. simpl.
  rewrite get_checkpoint_run, S1. simpl.
  rewrite check_output_run, S2, I2.
  rewrite check_output_run, S3, I3.
  rewrite check_output_run, S4.
  rewrite check_output_run, S5.
  rewrite Nr, Nl. cbn [orb].
  rewrite Hr, Hl. simpl. now rewrite app_nil_r.
Qed.

(** X2.  When both pulls work and one of the four commands that read
    the clocks and the listings exits with a non-zero status,
    [should_be_active] warns and answers [False]. *)
Theorem should_be_active_command_failure (host short : string) (n : nat)
    (time_r time_l : Z) :
  Py.getitem (Py.split_sep host "."%char) 0 = Some short ->
  status (sh n (Sync host)) = 0 ->
  status (sh (1 + n) (Sync EmptyString)) = 0 ->
  status (sh (2 + n) (DateRemote host)) <> 0
  \/ (status (sh (2 + n) (DateRemote host)) = 0
      /\ Py.int (stdout (sh (2 + n) (DateRemote host))) = Some time_r
      /\ (status (sh (3 + n) DateLocal) <> 0
          \/ (status (sh (3 + n) DateLocal) = 0
              /\ Py.int (stdout (sh (3 + n) DateLocal)) = Some time_l
              /\ (status (sh (4 + n) (ListRemote short)) <> 0
                  \/ (status (sh (4 + n) (ListRemote short)) = 0
                      /\ status (sh (5 + n) ListLocal) <> 0))))) ->
  value (should_be_active sh getfqdn mktime_strptime host n) = Ok false
  /\ last (trace (should_be_active sh getfqdn mktime_strptime host n)) (EvSleep 0)
     = EvLog "WRN: Could not get chkpt timestamps".
Proof.
  intros E S0 S1 H.
  apply Z.eqb_eq in S0, S1.
  simpl plus in *.
  unfold should_be_active. rewrite E.
  unfold bind, try_except.
  rewrite get_checkpoint_run, S0. simpl.
  rewrite get_checkpoint_run, S1. simpl.
  rewrite check_output_run.
  destruct H as [F2 | (S2 & I2 & H)].
  { apply Z.eqb_neq in F2. rewrite F2. now split. }
  apply Z.eqb_eq in S2. rewrite S2, I2.
  rewrite check_output_run.
  destruct H as [F3 | (S3 & I3 & H)].
  { apply Z.eqb_neq in F3. rewrite F3. now split. }
  apply Z.eqb_eq in S3. rewrite S3, I3.
  rewrite check_output_run.
  destruct H as [F4 | (S4 & F5)].
  { apply Z.eqb_neq in F4. rewrite F4. now split. }
  apply Z.eqb_eq in S4. apply Z.eqb_neq in F5. rewrite S4.
  rewrite check_output_run, F5. now split.
Qed.

End ResolutionPaths.

Lemma should_be_active_decides_witness :
  should_be_active Examples.sh_remote_newer "hostA" Examples.two_times "hostB" 0%nat
  = (EvRun (Sync "hostB") Examples.done
       :: EvRun (Sync EmptyString) Examples.done
       :: EvLog ("checking clock skew: " ++ ssh_cmd "hostB" ++ "date +%s")
       :: EvRun (DateRemote "hostB") (mkOutcome 0 "100")
       :: EvRun DateLocal (mkOutcome 0 "100")
       :: EvRun (ListRemote "hostB") (Examples.sh_remote_newer 4 (ListRemote "hostB"))
       :: EvRun ListLocal (Examples.sh_remote_newer 5 ListLocal)
       :: [] ++ [],
     6%nat, Ok (remote_is_newer 1200 (100 - 100) 1000 "hostB" "hostA")).
Proof.
  apply (should_be_active_decides Examples.sh_remote_newer "hostA" Examples.two_times
           "hostB" "hostB" 0%nat 100 100 1200 1000 [] []);
    reflexivity.
Defined.

Lemma should_be_active_command_failure_witness :
  value (should_be_active Examples.sh_no_clock "hostA" Examples.no_time "hostB" 0%nat)
  = Ok false
  /\ last (trace (should_be_active Examples.sh_no_clock "hostA" Examples.no_time
                    "hostB" 0%nat)) (EvSleep 0)
     = EvLog "WRN: Could not get chkpt timestamps".
Proof.
  apply (should_be_active_command_failure Examples.sh_no_clock "hostA" Examples.no_time
           "hostB" "hostB" 0%nat 0 0); try reflexivity.
  left. discriminate.
Defined.

(** ** How many commands, and which exceptions *)

Section Bounds.

Lemma runs_ret {A : Type} (k : nat) (a : A) : runs_at_most k (ret a).
Proof. intros n. simpl. lia. Qed.

Lemma runs_raise {A : Type} (k : nat) (e : Py.exn) : runs_at_most k (@raise A e).
Proof. intros n. simpl. lia. Qed.

Lemma runs_emit (k : nat) (e : event) : runs_at_most k (emit e).
Proof. intros n. simpl. lia. Qed.

Lemma runs_bind {A B : Type} (k1 k : nat) (m : M A) (f : A -> M B) :
  runs_at_most k1 m ->
  (forall a, runs_at_most (k - k1) (f a)) ->
  (k1 <= k)%nat ->
  runs_at_most k (bind m f).
Proof.
  intros Hm Hf Hk n. unfold bind. specialize (Hm n).
  destruct (m n) as [[t1 n1] [a|e]]; simpl in *; [|lia].
  specialize (Hf a n1). destruct (f a n1) as [[t2 n2] r]; simpl in *. lia.
Qed.

Lemma runs_try_except {A : Type} (k1 k : nat) (m h : M A) (handles : Py.exn -> bool) :
  runs_at_most k1 m ->
  runs_at_most (k - k1) h ->
  (k1 <= k)%nat ->
  runs_at_most k (try_except m handles h).
Proof.
  intros Hm Hh Hk n. unfold try_except. specialize (Hm n).
  destruct (m n) as [[t1 n1] [a|e]]; simpl in *; [lia|].
  destruct (handles e); simpl; [|lia].
  specialize (Hh n1). destruct (h n1) as [[t2 n2] r]; simpl in *. lia.
Qed.

Lemma runs_check_call sh (k : nat) (c : command) :
  (1 <= k)%nat -> runs_at_most k (check_call sh c).
Proof.
  intros Hk n. unfold check_call, bind, run_shell. simpl.
  destruct (status (sh n c) =? 0); simpl; lia.
Qed.

Lemma runs_check_output sh (k : nat) (c : command) :
  (1 <= k)%nat -> runs_at_most k (check_output sh c).
Proof.
  intros Hk n. unfold check_output, bind, run_shell. simpl.
  destruct (status (sh n c) =? 0); simpl; lia.
Qed.

Lemma raises_ret {A : Type} (Q : Py.exn -> bool) (a : A) : raises_only Q (ret a).
Proof. intros n e. discriminate. Qed.

Lemma raises_raise {A : Type} (Q : Py.exn -> bool) (e : Py.exn) :
  Q e = true -> raises_only Q (@raise A e).
Proof. intros H n e' E. unfold value in E. simpl in E. congruence. Qed.

Lemma raises_emit (Q : Py.exn -> bool) (e : event) : raises_only Q (emit e).
Proof. intros n e'. discriminate. Qed.

Lemma raises_bind {A B : Type} (Q : Py.exn -> bool) (m : M A) (f : A -> M B) :
  raises_only Q m -> (forall a, raises_only Q (f a)) -> raises_only Q (bind m f).
Proof.
  intros Hm Hf n e. unfold bind. specialize (Hm n).
  destruct (m n) as [[t1 n1] [a|e1]]; unfold value in *; simpl in *.
  - specialize (Hf a n1). destruct (f a n1) as [[t2 n2] r]. exact (Hf e).
  - intros E. injection E as <-. now apply Hm.
Qed.

(** What the body raises is either caught, and then the handler is
    what counts, or allowed to leave. *)
Lemma raises_try_except {A : Type} (Qm Q : Py.exn -> bool) (m h : M A)
    (handles : Py.exn -> bool) :
  raises_only Qm m ->
  (forall e, Qm e = true -> handles e = false -> Q e = true) ->
  raises_only Q h ->
  raises_only Q (try_except m handles h).
Proof.
  intros Hm Hq Hh n e. unfold try_except. specialize (Hm n).
  destruct (m n) as [[t1 n1] [a|e1]]; unfold value in *; simpl in *;
    [discriminate|].
  destruct (handles e1) eqn:Eh.
  - specialize (Hh n1). destruct (h n1) as [[t2 n2] r]. exact (Hh e).
  - simpl. intros E. injection E as <-. apply Hq; [now apply Hm | exact Eh].
Qed.

Lemma raises_check_call sh (c : command) :
  raises_only Py.is_CalledProcessError (check_call sh c).
Proof.
  intros n e. unfold check_call, bind, run_shell, value. simpl.
  destruct (status (sh n c) =? 0); simpl; [discriminate|].
  intros E. now injection E as <-.
Qed.

Lemma raises_check_output sh (c : command) :
  raises_only Py.is_CalledProcessError (check_output sh c).
Proof.
  intros n e. unfold check_output, bind, run_shell, value. simpl.
  destruct (status (sh n c) =? 0); simpl; [discriminate|].
  intros E. now injection E as <-.
Qed.

Lemma raises_weaken {A : Type} (Q1 Q2 : Py.exn -> bool) (m : M A) :
  (forall e, Q1 e = true -> Q2 e = true) -> raises_only Q1 m -> raises_only Q2 m.
Proof. intros H Hm n e E. apply H. now apply (Hm n). Qed.

End Bounds.

Ltac runs_step :=
  match goal with
  | |- runs_at_most _ (bind (get_checkpoint _ _) _) =>
      apply (runs_bind 1); [| intros ?; simpl Nat.sub | lia]
  | |- runs_at_most _ (bind (check_output _ _) _) =>
      apply (runs_bind 1);
      [apply runs_check_output; lia | intros ?; simpl Nat.sub | lia]
  | |- runs_at_most _ (bind _ _) =>
      apply (runs_bind 0); [| intros ?; simpl Nat.sub | lia]
  | |- runs_at_most _ (ret _) => apply runs_ret
  | |- runs_at_most _ (raise _) => apply runs_raise
  | |- runs_at_most _ (emit _) => apply runs_emit
  | |- runs_at_most _ (if ?b then _ else _) => destruct b
  | |- runs_at_most _ (match ?x with _ => _ end) => destruct x
  end.

Section Footprint.

Variable sh : nat -> command -> outcome.
Variable getfqdn : string.
Variable mktime_strptime : string -> option Z.

Lemma extract_dt_read_only str c1 c2 :
  emits is_read_only (extract_dt mktime_strptime str c1 c2).
Proof.
  unfold extract_dt, extract_dt_handler, logit. repeat emits_step.
Qed.

Lemma extract_dt_runs_nothing (k : nat) str c1 c2 :
  runs_at_most k (extract_dt mktime_strptime str c1 c2).
Proof.
  unfold extract_dt, extract_dt_handler, logit.
  apply (runs_try_except 0); [| | lia]; repeat runs_step.
Qed.

Lemma get_checkpoint_runs_once (k : nat) host :
  (1 <= k)%nat -> runs_at_most k (get_checkpoint sh host).
Proof. intros Hk n. rewrite get_checkpoint_run. simpl. lia. Qed.

Lemma should_be_active_read_only (host : string) :
  emits is_read_only (should_be_active sh getfqdn mktime_strptime host).
Proof.
  unfold should_be_active, get_checkpoint, warn, logit.
  repeat (emits_step || apply extract_dt_read_only).
Qed.

Lemma should_be_active_runs (host : string) :
  runs_at_most 6 (should_be_active sh getfqdn mktime_strptime host).
Proof.
  unfold should_be_active, warn, logit.
  destruct (Py.getitem (Py.split_sep host ".") 0); [|apply runs_raise].
  runs_step; [now apply get_checkpoint_runs_once|].
  destruct (negb a); [apply runs_ret|].
  runs_step; [now apply get_checkpoint_runs_once|].
  destruct (negb a0); [apply runs_ret|].
  apply (runs_try_except 4); [| repeat runs_step | lia].
  repeat (runs_step || apply extract_dt_runs_nothing).
Qed.

(** X3.  Whatever the shell answers, [should_be_active] only logs and
    runs the sync, clock and listing commands (no probe, no activate,
    no deactivate, no sleep), and runs at most six commands. *)
Theorem should_be_active_footprint (host : string) :
  emits is_read_only (should_be_active sh getfqdn mktime_strptime host)
  /\ runs_at_most 6 (should_be_active sh getfqdn mktime_strptime host).
Proof.
  split; [apply should_be_active_read_only | apply should_be_active_runs].
Qed.

Lemma extract_dt_raises str c1 c2 :
  raises_only is_uncaught (extract_dt mktime_strptime str c1 c2).
Proof.
  unfold extract_dt, extract_dt_handler, logit.
  apply (raises_try_except Py.is_Exception).
  - destruct (option_map _ _); [|now apply raises_raise].
    destruct (Py.getitem (Py.split str) c1); [|now apply raises_raise].
    destruct (Py.getitem l 0); [|now apply raises_raise].
    destruct (mktime_strptime _); [apply raises_ret | now apply raises_raise].
  - intros e He Hn. congruence.
  - destruct (Py.getitem (Py.split str) c1); [|now apply raises_raise].
    destruct (option_map _ _); [|now apply raises_raise].
    destruct (Py.getitem l 0); [|now apply raises_raise].
    apply raises_bind; [apply raises_emit | intros; apply raises_ret].
Qed.

Lemma get_checkpoint_never_raises (Q : Py.exn -> bool) host :
  raises_only Q (get_checkpoint sh host).
Proof. intros n e. rewrite get_checkpoint_run. discriminate. Qed.

Lemma is_uncaught_loop_exn (env_port : option string) (e : Py.exn) :
  is_uncaught e = true -> is_loop_exn env_port e = true.
Proof. intros H. unfold is_loop_exn. now rewrite H. Qed.

(** With [TEGU_PORT] set [is_active] raises [TypeError]; with the
    default port it never raises. *)
Lemma is_active_raises (env_port : option string) host :
  raises_only (is_loop_exn env_port) (is_active env_port sh host).
Proof.
  destruct env_port as [port|].
  - unfold is_active. simpl. now apply raises_raise.
  - intros n e. rewrite is_active_run. discriminate.
Qed.

Lemma deactivate_tegu_never_raises (Q : Py.exn -> bool) host :
  raises_only Q (deactivate_tegu sh host).
Proof. intros n e. rewrite deactivate_tegu_run. discriminate. Qed.

Lemma activate_tegu_never_raises (Q : Py.exn -> bool) host :
  raises_only Q (activate_tegu sh host).
Proof. intros n e. rewrite activate_tegu_run. discriminate. Qed.

Lemma should_be_active_raises host :
  raises_only is_uncaught (should_be_active sh getfqdn mktime_strptime host).
Proof.
  unfold should_be_active, warn, logit.
  destruct (Py.getitem (Py.split_sep host ".") 0); [|now apply raises_raise].
  apply raises_bind; [apply get_checkpoint_never_raises | intros ok_r].
  destruct (negb ok_r); [apply raises_ret|].
  apply raises_bind; [apply get_checkpoint_never_raises | intros ok_l].
  destruct (negb ok_l); [apply raises_ret|].
  apply (raises_try_except
           (fun e => Py.is_CalledProcessError e || is_uncaught e)).
  - assert (Hout : forall c,
               raises_only (fun e => Py.is_CalledProcessError e || is_uncaught e)
                 (check_output sh c)).
    { intros c. apply (raises_weaken Py.is_CalledProcessError);
        [intros e He; now rewrite He | apply raises_check_output]. }
    assert (Hdt : forall str c1 c2,
               raises_only (fun e => Py.is_CalledProcessError e || is_uncaught e)
                 (extract_dt mktime_strptime str c1 c2)).
    { intros str c1 c2. apply (raises_weaken is_uncaught);
        [intros e He; rewrite He; apply orb_true_r | apply extract_dt_raises]. }
    apply raises_bind; [apply raises_emit | intros _].
    apply raises_bind; [apply Hout | intros out_r].
    destruct (Py.int out_r); [|now apply raises_raise].
    apply raises_bind; [apply Hout | intros out_l].
    destruct (Py.int out_l); [|now apply raises_raise].
    apply raises_bind; [apply Hout | intros ts_r_s].
    apply raises_bind; [apply Hout | intros ts_l_s].
    destruct (Py.is_empty ts_r_s || Py.is_empty ts_l_s).
    + apply raises_bind; [apply raises_emit | intros _]. now apply raises_raise.
    + apply raises_bind; [apply Hdt | intros ts_r].
      apply raises_bind; [apply Hdt | intros ts_l]. apply raises_ret.
  - intros e He Hn. rewrite Hn in He. exact He.
  - apply raises_bind; [apply raises_emit | intros; apply raises_ret].
Qed.

Lemma check_host_raises (env_port : option string) this_node host st :
  raises_only (is_loop_exn env_port)
    (check_host env_port sh getfqdn mktime_strptime this_node host st).
Proof.
  unfold check_host, logit. destruct st as [i a].
  destruct (String.eqb host this_node); [apply raises_ret|].
  apply raises_bind; [apply is_active_raises | intros host_active].
  apply raises_bind; [| intros; apply raises_ret].
  destruct (i && host_active); [|apply raises_ret].
  apply raises_bind; [apply raises_emit | intros _].
  apply raises_bind;
    [apply (raises_weaken is_uncaught);
     [apply is_uncaught_loop_exn | apply should_be_active_raises]
    | intros d].
  destruct d;
    (apply raises_bind; [apply raises_emit | intros _]);
    (apply raises_bind; [apply deactivate_tegu_never_raises | intros; apply raises_ret]).
Qed.

Lemma check_hosts_raises (env_port : option string) this_node standby_list :
  forall st,
    raises_only (is_loop_exn env_port)
      (check_hosts env_port sh getfqdn mktime_strptime this_node standby_list st).
Proof.
  induction standby_list as [|host rest IH]; intros st; cbn [check_hosts].
  - apply raises_ret.
  - apply raises_bind; [apply check_host_raises | exact IH].
Qed.

Lemma cycle_raises (env_port : option string) standby_list this_node priority pw :
  raises_only (is_loop_exn env_port)
    (cycle env_port sh getfqdn mktime_strptime standby_list this_node priority pw).
Proof.
  unfold cycle, sleep, logit.
  apply raises_bind; [destruct (negb pw); apply raises_emit | intros _].
  apply raises_bind; [apply is_active_raises | intros i].
  apply raises_bind; [apply check_hosts_raises | intros st].
  destruct (negb (snd st)); [|apply raises_ret].
  destruct (pw || (priority =? 0)%nat); [|apply raises_ret].
  apply raises_bind; [apply raises_emit | intros _].
  apply raises_bind; [apply activate_tegu_never_raises | intros; apply raises_ret].
Qed.

Lemma loop_from_raises_only (env_port : option string) standby_list this_node
    priority fuel :
  forall pw,
    raises_only (is_loop_exn env_port)
      (loop_from env_port sh getfqdn mktime_strptime standby_list this_node
         priority fuel pw).
Proof.
  induction fuel as [|fuel IH]; intros pw; cbn [loop_from].
  - apply raises_ret.
  - apply raises_bind; [apply cycle_raises | exact IH].
Qed.

(** X4.  However long it runs and whatever the shell answers, the only
    exceptions that can end [main_loop] are the [ValueError] of [int],
    the [NameError] of [false], the [IndexError] and
    [UnboundLocalError] of the [except] clause of [extract_dt], and,
    only when [TEGU_PORT] is set in the environment, the [TypeError] of
    the probe's [%d]; a command that fails ([CalledProcessError]) never
    ends it. *)
Theorem main_loop_uncaught (env_port : option string) (standby_list : list string)
    (this_node : string) (priority fuel n : nat) (e : Py.exn) :
  value (main_loop env_port sh getfqdn mktime_strptime standby_list this_node
           priority fuel n)
  = Exn e ->
  e = Py.ValueError \/ e = Py.IndexError \/ e = Py.NameError "false"
  \/ e = Py.UnboundLocalError "ttoks"
  \/ (e = Py.TypeError /\ env_port <> None).
Proof.
  intros H. unfold main_loop in H.
  apply (loop_from_raises_only env_port standby_list this_node priority fuel
           false n e) in H.
  unfold is_loop_exn in H.
  destruct e as [ | | | | name | name | code]; simpl in H; try discriminate.
  - now right; left.
  - now left.
  - destruct env_port; [|discriminate].
    right; right; right; right. now split.
  - rewrite orb_false_r in H. apply String.eqb_eq in H. subst.
    now right; right; left.
  - rewrite orb_false_r in H. apply String.eqb_eq in H. subst.
    now right; right; right; left.
Qed.

End Footprint.

Lemma main_loop_uncaught_witness :
  (Py.ValueError = Py.ValueError \/ Py.ValueError = Py.IndexError
   \/ Py.ValueError = Py.NameError "false"
   \/ Py.ValueError = Py.UnboundLocalError "ttoks"
   \/ (Py.ValueError = Py.TypeError /\ @None string <> None))
  /\ (Py.TypeError = Py.ValueError \/ Py.TypeError = Py.IndexError
      \/ Py.TypeError = Py.NameError "false"
      \/ Py.TypeError = Py.UnboundLocalError "ttoks"
      \/ (Py.TypeError = Py.TypeError /\ Some "29444" <> None)).
Proof.
  split.
  - apply (main_loop_uncaught Examples.sh_banner "hostA" Examples.no_time None
             ["hostB"; "hostC"] "hostA" 0 5 0%nat Py.ValueError).
    reflexivity.
  - apply (main_loop_uncaught Examples.sh_banner "hostA" Examples.no_time
             (Some "29444") ["hostB"; "hostC"] "hostA" 0 5 0%nat Py.TypeError).
    reflexivity.
Defined.

(** ** The columns of a listing *)

Section Columns.

Variable mktime_strptime : string -> option Z.

Lemma append_nil_r (s : string) : (s ++ EmptyString)%string = s.
Proof. induction s as [|c s IH]; simpl; [reflexivity | now rewrite IH]. Qed.

Lemma append_snoc (s t : string) (c : ascii) :
  ((s ++ String c EmptyString) ++ t)%string = (s ++ String c t)%string.
Proof. induction s as [|d s IH]; simpl; [reflexivity | now rewrite IH]. Qed.

Lemma split_sep_from_whole (sep : ascii) (t : string) :
  forall cur,
    has_char sep t = false ->
    Py.split_sep_from sep cur t = [(cur ++ t)%string].
Proof.
  induction t as [|c t IH]; intros cur H; simpl in *.
  - now rewrite append_nil_r.
  - apply orb_false_iff in H. destruct H as [Hc Ht]. rewrite Hc.
    rewrite (IH _ Ht). now rewrite append_snoc.
Qed.

Lemma split_sep_from_first (sep : ascii) (t rest : string) :
  forall cur,
    has_char sep t = false ->
    Py.split_sep_from sep cur (t ++ String sep rest)
    = (cur ++ t)%string :: Py.split_sep_from sep EmptyString rest.
Proof.
  induction t as [|c t IH]; intros cur H; simpl in *.
  - rewrite Ascii.eqb_refl. now rewrite append_nil_r.
  - apply orb_false_iff in H. destruct H as [Hc Ht]. rewrite Hc.
    rewrite (IH _ Ht). now rewrite append_snoc.
Qed.

(** X5.  With a token at both columns [extract_dt] does not raise.  It
    reads the date from column [c1] and the time from column [c2] up
    to its first dot (the fraction of a second is dropped), and gives
    the time stamp of the two; when they are no date and time it logs
    them and gives 0. *)
Theorem extract_dt_reads_columns (str : string) (c1 c2 : Z) (n : nat)
    (t1 t2 t frac : string) :
  Py.getitem (Py.split str) c1 = Some t1 ->
  Py.getitem (Py.split str) c2 = Some t2 ->
  has_char "."%char t = false ->
  t2 = t \/ t2 = (t ++ "." ++ frac)%string ->
  extract_dt mktime_strptime str c1 c2 n
  = match mktime_strptime (t1 ++ " " ++ t) with
    | Some ts => ([], n, Ok ts)
    | None =>
        ([EvLog ("unable to build a timestamp from: " ++ t1 ++ " and " ++ t)],
         n, Ok 0)
    end.
Proof.
  intros E1 E2 Hdot Ht2.
  destruct (extract_dt_with_tokens mktime_strptime str c1 c2 n t1 t2 E1 E2)
    as (t0 & E0 & ->).
  assert (t0 = t) as ->; [|reflexivity].
  unfold Py.split_sep in E0. destruct Ht2 as [-> | ->].
  - rewrite (split_sep_from_whole _ _ _ Hdot), getitem_head in E0.
    now injection E0 as <-.
  - change (t ++ "." ++ frac)%string with (t ++ String "."%char frac)%string in E0.
    rewrite (split_sep_from_first _ _ _ _ Hdot), getitem_head in E0.
    now injection E0 as <-.
Qed.

End Columns.

Lemma extract_dt_reads_columns_witness :
  extract_dt Examples.two_times
    "-rw-r--r-- 1 tegu tegu 512 2015-01-30 10:00:00.000000000 +0000 resmgr_1.ckpt"
    5 6 0%nat
  = match Examples.two_times ("2015-01-30" ++ " " ++ "10:00:00") with
    | Some ts => ([], 0%nat, Ok ts)
    | None =>
        ([EvLog ("unable to build a timestamp from: " ++ "2015-01-30" ++ " and "
                 ++ "10:00:00")],
         0%nat, Ok 0)
    end.
Proof.
  apply (extract_dt_reads_columns Examples.two_times _ 5 6 0%nat
           "2015-01-30" "10:00:00.000000000" "10:00:00" "000000000");
    try reflexivity.
  right. reflexivity.
Defined.

(** ** What a turn of the loop does and does not do *)

Section Turns.

Variable sh : nat -> command -> outcome.
Variable getfqdn : string.
Variable mktime_strptime : string -> option Z.
Variable this_node : string.

Lemma probed_app (t1 t2 : list event) : probed (t1 ++ t2) = probed t1 ++ probed t2.
Proof. unfold probed. apply flat_map_app. Qed.

Lemma probed_read_only (t : list event) :
  forallb is_read_only t = true -> probed t = [].
Proof.
  induction t as [|e t IH]; simpl; [reflexivity|].
  rewrite andb_true_iff. intros [He Ht]. rewrite (IH Ht).
  destruct e as [ | |[] o]; try reflexivity. discriminate.
Qed.

Lemma probed_pings_none (Q : event -> bool) (t : list event) :
  (forall e, Q e = true -> is_ping e = false) ->
  forallb Q t = true -> probed t = [].
Proof.
  intros HQ. induction t as [|e t IH]; simpl; [reflexivity|].
  rewrite andb_true_iff. intros [He Ht]. rewrite (IH Ht).
  apply HQ in He. destruct e as [ | |[] o]; try reflexivity. discriminate.
Qed.

Lemma should_be_active_starts_with_sync (host : string) (n : nat) :
  exists t,
    trace (should_be_active sh getfqdn mktime_strptime host n)
    = EvRun (Sync host) (sh n (Sync host)) :: t.
Proof.
  destruct (split_sep_first host "."%char) as [short E].
  unfold should_be_active. rewrite E.
  rewrite (bind_Ok _ _ _ _ _ _ (get_checkpoint_run sh host n)).
  unfold trace at 1. simpl. now eexists.
Qed.

(** A turn of the loop for a peer that answers, on an active node,
    opens with the probe, the log line and the first pull. *)
Lemma check_host_split_trace (host : string) (a : bool) (n : nat) :
  host <> this_node ->
  status (sh n (Ping host)) = 0 ->
  exists t,
    trace (check_host None sh getfqdn mktime_strptime this_node host (true, a) n)
    = EvRun (Ping host) (sh n (Ping host))
        :: EvLog "checking for split"
        :: EvRun (Sync host) (sh (S n) (Sync host)) :: t.
Proof.
  intros Hne Hup. apply String.eqb_neq in Hne. apply Z.eqb_eq in Hup.
  unfold check_host. rewrite Hne.
  rewrite (bind_Ok _ _ _ _ _ _ (is_active_run sh host n)).
  rewrite Hup. cbn [andb]. unfold trace at 1. cbn [fst app].
  match goal with
  | |- context [trace (bind ?m ?f ?k)] =>
      destruct (trace_bind_prefix m f k) as [t2 E2]; rewrite E2
  end.
  assert (El : forall k, logit "checking for split" k
                         = ([EvLog "checking for split"], k, Ok tt))
    by reflexivity.
  rewrite (bind_Ok _ _ _ _ _ _ (El (S n))).
  unfold trace at 1. cbn [fst app].
  match goal with
  | |- context [trace (bind ?m ?f ?k)] =>
      destruct (trace_bind_prefix m f k) as [t3 E3]; rewrite E3
  end.
  destruct (should_be_active_starts_with_sync host (S n)) as [t4 E4].
  rewrite E4. simpl. now eexists.
Qed.

(** The loop over the standby list raises only after a peer answered
    an active node and conflict resolution started. *)
Lemma check_hosts_raise_in_split (standby_list : list string) :
  forall i a n t n1 e,
    check_hosts None sh getfqdn mktime_strptime this_node standby_list (i, a) n
    = (t, n1, Exn e) ->
    i = true /\ (1 <= active_count t)%nat /\ existsb is_resolution t = true.
Proof.
  induction standby_list as [|host rest IH]; intros i a n t n1 e;
    cbn [check_hosts].
  - discriminate.
  - destruct (String.eqb_spec host this_node) as [->|Hne].
    + rewrite (bind_Ok _ _ _ _ _ _ (check_host_self _ _ _ _ _ _)).
      cbn [app]. rewrite <- run_eta. apply IH.
    + destruct i.
      * destruct (Z.eqb_spec (status (sh n (Ping host))) 0) as [Hup|Hdown].
        -- intros H. split; [reflexivity|].
           assert (Et : trace
                          (bind (check_host None sh getfqdn mktime_strptime this_node
                                   host (true, a))
                             (fun st' =>
                                check_hosts None sh getfqdn mktime_strptime this_node
                                  rest st') n) = t)
             by now rewrite H.
           match type of Et with
           | context [trace (bind ?m ?f ?k)] =>
               destruct (trace_bind_prefix m f k) as [t2 E2]; rewrite E2 in Et
           end.
           destruct (check_host_split_trace host a n Hne Hup) as [t3 E3].
           rewrite E3 in Et. subst t. cbn [app].
           rewrite !active_count_cons. cbn [existsb is_resolution].
           apply Z.eqb_eq in Hup. cbn [is_ping_ok]. rewrite Hup.
           split; [lia | reflexivity].
        -- rewrite (bind_Ok _ _ _ _ _ _
                      (check_host_peer_down sh getfqdn mktime_strptime this_node
                         host a n Hne Hdown)).
           destruct (check_hosts None sh getfqdn mktime_strptime this_node rest
                       (true, a) (S n)) as [[t' n'] r'] eqn:Er.
           unfold trace, value. cbn [fst snd app].
           intros H. injection H as Ht Hn He. subst t r'.
           destruct (IH true a (S n) _ _ e Er) as (_ & Hc & Hr).
           split; [reflexivity|].
           rewrite active_count_cons. cbn [existsb is_resolution orb].
           split; [lia | exact Hr].
      * rewrite (bind_Ok _ _ _ _ _ _
                   (check_host_inactive sh getfqdn mktime_strptime this_node
                      host a n Hne)).
        intros H. injection H as Ht Hn He.
        destruct (check_hosts_inactive sh getfqdn mktime_strptime this_node rest
                    (a || (status (sh n (Ping host)) =? 0)) (S n))
          as (t' & n' & E' & _).
        rewrite E' in He. discriminate.
Qed.

Variable standby_list : list string.
Variable priority : nat.

(** X6.  A turn of the loop can raise in two places only.  With
    [TEGU_PORT] set in the environment it raises [TypeError] in its
    first probe, right after the opening sleep and before any command
    is run.  With [TEGU_PORT] not set it can only raise during conflict
    resolution: the local tegu and at least one peer had answered the
    probe and a conflict resolution command had been run. *)
Theorem cycle_raises_in_split (env_port : option string) (pw : bool) (n : nat)
    (e : Py.exn) :
  value (cycle env_port sh getfqdn mktime_strptime standby_list this_node priority pw n)
  = Exn e ->
  (env_port <> None
   /\ cycle env_port sh getfqdn mktime_strptime standby_list this_node priority pw n
      = ([EvSleep (cycle_delay priority pw)], n, Exn Py.TypeError))
  \/ (env_port = None
      /\ existsb is_resolution
           (trace (cycle env_port sh getfqdn mktime_strptime standby_list this_node
                     priority pw n))
         = true
      /\ (2 <= active_count
                 (trace (cycle env_port sh getfqdn mktime_strptime standby_list
                           this_node priority pw n)))%nat).
Proof.
  destruct env_port as [port|];
    [intros _; left; split; [discriminate | apply cycle_port_set] |].
  intros H. right. split; [reflexivity|]. revert H.
  rewrite cycle_run. cbv zeta.
  destruct (check_hosts None sh getfqdn mktime_strptime this_node standby_list
              (status (sh n (Ping "localhost")) =? 0,
               status (sh n (Ping "localhost")) =? 0) (S n))
    as [[t n1] [[i a]|e']] eqn:Eh; unfold value, trace; cbn [fst snd].
  - destruct a; [discriminate|].
    destruct (pw || (priority =? 0)%nat); discriminate.
  - intros _. apply check_hosts_raise_in_split in Eh.
    destruct Eh as (Hi & Hc & Hr).
    rewrite !active_count_cons. cbn [existsb is_resolution is_ping_ok orb].
    rewrite Hi. split; [exact Hr | lia].
Qed.

(** X7.  A node whose own tegu answers the probe never activates
    anything in that turn, and a turn that completes leaves
    [priority_wait] as it was. *)
Theorem cycle_active_node (env_port : option string) (pw : bool) (n : nat) :
  status (sh n (Ping "localhost")) = 0 ->
  existsb is_activation
    (trace (cycle env_port sh getfqdn mktime_strptime standby_list this_node priority
              pw n))
  = false
  /\ forall v,
      value (cycle env_port sh getfqdn mktime_strptime standby_list this_node priority
               pw n)
      = Ok v ->
      v = pw.
Proof.
  intros Hup.
  destruct env_port as [port|];
    [rewrite cycle_port_set; split; [reflexivity | discriminate] |].
  apply Z.eqb_eq in Hup.
  rewrite cycle_run. cbv zeta. rewrite Hup.
  pose proof (check_hosts_quiet sh getfqdn mktime_strptime this_node standby_list
                (true, true) (S n)) as Hq.
  apply quiet_no_activation in Hq.
  destruct (check_hosts None sh getfqdn mktime_strptime this_node standby_list
              (true, true) (S n)) as [[t n1] [[i a]|e']] eqn:Eh;
    unfold value, trace in *; cbn [fst snd] in *.
  - apply check_hosts_any_stays in Eh. cbn [snd] in Eh. subst a.
    cbn [existsb is_activation orb]. split; [exact Hq|].
    intros v H. now injection H as <-.
  - cbn [existsb is_activation orb]. split; [exact Hq | discriminate].
Qed.

(** X8.  With [TEGU_PORT] not set in the environment, a node whose own
    tegu does not answer the probe completes the turn without raising,
    runs no conflict resolution and deactivates nothing. *)
Theorem cycle_inactive_node (pw : bool) (n : nat) :
  status (sh n (Ping "localhost")) <> 0 ->
  (exists v,
      value (cycle None sh getfqdn mktime_strptime standby_list this_node priority pw n)
      = Ok v)
  /\ existsb is_resolution
       (trace (cycle None sh getfqdn mktime_strptime standby_list this_node priority pw n))
     = false
  /\ existsb is_deactivation
       (trace (cycle None sh getfqdn mktime_strptime standby_list this_node priority pw n))
     = false.
Proof.
  intros Hdown. apply Z.eqb_neq in Hdown.
  rewrite cycle_run. cbv zeta. rewrite Hdown.
  destruct (check_hosts_inactive sh getfqdn mktime_strptime this_node standby_list
              false (S n)) as (t & n1 & Eh & Hp).
  rewrite Eh. unfold value, trace. cbn [fst snd].
  assert (Hr : existsb is_resolution t = false).
  { apply pings_have_no_other; [|exact Hp]. intros [ | |[]]; simpl; congruence. }
  assert (Hd : existsb is_deactivation t = false).
  { apply pings_have_no_other; [|exact Hp]. intros [ | |[]]; simpl; congruence. }
  destruct (false || existsb is_ping_ok t); cbn [negb];
    [| destruct (pw || (priority =? 0)%nat)];
    (split; [now eexists|]); simpl; rewrite ?existsb_app, Hr, Hd; now split.
Qed.

Lemma emits_weaken {A : Type} (P Q : event -> bool) (m : M A) :
  (forall e, P e = true -> Q e = true) -> emits P m -> emits Q m.
Proof.
  intros H Hm k. specialize (Hm k).
  induction (trace (m k)) as [|e t IH]; simpl in *; [reflexivity|].
  apply andb_true_iff in Hm. destruct Hm as [He Ht].
  now rewrite (H e He), (IH Ht).
Qed.

Lemma check_host_probed (host : string) (st : bool * bool) (n : nat) :
  probed (trace (check_host None sh getfqdn mktime_strptime this_node host st n))
  = if String.eqb host this_node then [] else [host].
Proof.
  unfold check_host. destruct st as [i a].
  destruct (String.eqb host this_node); [reflexivity|].
  rewrite (bind_Ok _ _ _ _ _ _ (is_active_run sh host n)).
  unfold trace at 1. cbn [fst]. rewrite probed_app. cbn [probed flat_map app].
  match goal with
  | |- context [trace (?m (S n))] =>
      assert (Hnp : emits (fun e => negb (is_ping e)) m)
  end.
  { unfold deactivate_tegu, logit.
    repeat (emits_step
            || (apply (emits_weaken is_read_only);
                [intros [ | |[]]; unfold is_read_only; simpl; congruence
                | apply should_be_active_read_only])). }
  rewrite (probed_pings_none _ _ (fun e He => proj1 (negb_true_iff _) He) (Hnp (S n))).
  reflexivity.
Qed.

Lemma check_hosts_probed (l : list string) :
  forall st n t n1 st',
    check_hosts None sh getfqdn mktime_strptime this_node l st n = (t, n1, Ok st') ->
    probed t = peers_of this_node l.
Proof.
  induction l as [|host rest IH]; intros st n t n1 st'; cbn [check_hosts].
  - intros H. now injection H as <- _ _.
  - unfold bind.
    pose proof (check_host_probed host st n) as Hh.
    destruct (check_host None sh getfqdn mktime_strptime this_node host st n)
      as [[t1 n2] [st1|e]]; [|discriminate].
    destruct (check_hosts None sh getfqdn mktime_strptime this_node rest st1 n2)
      as [[t2 n3] r] eqn:Er.
    intros H. injection H as <- _ ->.
    unfold trace in Hh. cbn [fst] in Hh.
    rewrite probed_app, Hh, (IH _ _ _ _ _ Er).
    unfold peers_of. cbn [filter].
    now destruct (String.eqb host this_node).
Qed.

(** X9.  A turn that completes has probed the local tegu (as
    localhost) and then every entry of the standby list other than the
    local node, each once and in the order of the list. *)
Theorem cycle_probes_in_order (env_port : option string) (pw : bool) (n : nat)
    (v : bool) :
  value (cycle env_port sh getfqdn mktime_strptime standby_list this_node priority pw n)
  = Ok v ->
  probed
    (trace (cycle env_port sh getfqdn mktime_strptime standby_list this_node priority
              pw n))
  = "localhost" :: peers_of this_node standby_list.
Proof.
  destruct env_port as [port|]; [rewrite cycle_port_set; discriminate |].
  rewrite cycle_run. cbv zeta.
  destruct (check_hosts None sh getfqdn mktime_strptime this_node standby_list
              (status (sh n (Ping "localhost")) =? 0,
               status (sh n (Ping "localhost")) =? 0) (S n))
    as [[t n1] [[i a]|e']] eqn:Eh; unfold value, trace; cbn [fst snd];
    [|discriminate].
  apply check_hosts_probed in Eh. intros _.
  destruct a; [| destruct (pw || (priority =? 0)%nat)];
    cbn [fst app probed flat_map]; fold (probed t);
    rewrite ?probed_app; cbn [probed flat_map app];
    rewrite ?app_nil_r, Eh; reflexivity.
Qed.

End Turns.

Lemma cycle_raises_in_split_witness :
  ((@None string <> None
    /\ cycle None Examples.sh_banner "hostA" Examples.no_time ["hostB"; "hostC"]
         "hostA" 0 false 0%nat
       = ([EvSleep (cycle_delay 0 false)], 0%nat, Exn Py.TypeError))
   \/ (@None string = None
       /\ existsb is_resolution
            (trace (cycle None Examples.sh_banner "hostA" Examples.no_time
                      ["hostB"; "hostC"] "hostA" 0 false 0%nat))
          = true
       /\ (2 <= active_count
                  (trace (cycle None Examples.sh_banner "hostA" Examples.no_time
                            ["hostB"; "hostC"] "hostA" 0 false 0%nat)))%nat))
  /\ ((Some "29444" <> None
       /\ cycle (Some "29444") Examples.sh_banner "hostA" Examples.no_time
            ["hostB"; "hostC"] "hostA" 0 false 0%nat
          = ([EvSleep (cycle_delay 0 false)], 0%nat, Exn Py.TypeError))
      \/ (Some "29444" = None
          /\ existsb is_resolution
               (trace (cycle (Some "29444") Examples.sh_banner "hostA" Examples.no_time
                         ["hostB"; "hostC"] "hostA" 0 false 0%nat))
             = true
          /\ (2 <= active_count
                     (trace (cycle (Some "29444") Examples.sh_banner "hostA"
                               Examples.no_time ["hostB"; "hostC"] "hostA" 0 false
                               0%nat)))%nat)).
Proof.
  split.
  - apply (cycle_raises_in_split Examples.sh_banner "hostA" Examples.no_time "hostA"
             ["hostB"; "hostC"] 0 None false 0%nat Py.ValueError).
    reflexivity.
  - apply (cycle_raises_in_split Examples.sh_banner "hostA" Examples.no_time "hostA"
             ["hostB"; "hostC"] 0 (Some "29444") false 0%nat Py.TypeError).
    reflexivity.
Defined.

Lemma cycle_active_node_witness :
  existsb is_activation
    (trace (cycle None Examples.sh_remote_newer "hostA" Examples.two_times
              ["hostB"; "hostC"] "hostA" 0 false 0%nat))
  = false
  /\ forall v,
      value (cycle None Examples.sh_remote_newer "hostA" Examples.two_times
               ["hostB"; "hostC"] "hostA" 0 false 0%nat)
      = Ok v ->
      v = false.
Proof.
  apply (cycle_active_node Examples.sh_remote_newer "hostA" Examples.two_times "hostA"
           ["hostB"; "hostC"] 0 None false 0%nat).
  reflexivity.
Defined.

Lemma cycle_inactive_node_witness :
  (exists v,
      value (cycle None (Examples.sh_peer_from 0 "hostA") "hostC" Examples.no_time
               ["hostA"; "hostB"] "hostC" 2 false 0%nat)
      = Ok v)
  /\ existsb is_resolution
       (trace (cycle None (Examples.sh_peer_from 0 "hostA") "hostC" Examples.no_time
                 ["hostA"; "hostB"] "hostC" 2 false 0%nat))
     = false
  /\ existsb is_deactivation
       (trace (cycle None (Examples.sh_peer_from 0 "hostA") "hostC" Examples.no_time
                 ["hostA"; "hostB"] "hostC" 2 false 0%nat))
     = false.
Proof.
  apply (cycle_inactive_node (Examples.sh_peer_from 0 "hostA") "hostC" Examples.no_time
           "hostC" ["hostA"; "hostB"] 2 false 0%nat).
  discriminate.
Defined.

Lemma cycle_probes_in_order_witness :
  probed
    (trace (cycle None Examples.sh_remote_newer "hostB" Examples.two_times
              ["hostA"; "hostB"; "hostC"] "hostB" 1 false 0%nat))
  = "localhost" :: peers_of "hostB" ["hostA"; "hostB"; "hostC"].
Proof.
  apply (cycle_probes_in_order Examples.sh_remote_newer "hostB" Examples.two_times
           "hostB" ["hostA"; "hostB"; "hostC"] 1 None false 0%nat false).
  reflexivity.
Defined.

(** ** Many turns *)

Section Turns2.

Variable sh : nat -> command -> outcome.
Variable getfqdn : string.
Variable mktime_strptime : string -> option Z.
Variable this_node : string.
Variable standby_list : list string.
Variable priority : nat.

Lemma no_sleep_is_loop_sleep (t : list event) :
  existsb is_sleep t = false -> Forall (is_loop_sleep priority) t.
Proof.
  induction t as [|e t IH]; simpl; [constructor|].
  intros H. apply orb_false_iff in H. destruct H as [He Ht].
  constructor; [|now apply IH].
  destruct e; simpl; trivial. discriminate.
Qed.

Lemma cycle_sleeps_well (pw : bool) (n : nat) :
  (pw = true -> priority <> 0%nat) ->
  Forall (is_loop_sleep priority)
    (trace (cycle None sh getfqdn mktime_strptime standby_list this_node priority pw n)).
Proof.
  intros Hinv.
  destruct (cycle_sleeps_once sh getfqdn mktime_strptime this_node standby_list
              priority pw n) as (rest & E & Hrest).
  rewrite E. constructor; [|now apply no_sleep_is_loop_sleep].
  unfold is_loop_sleep, cycle_delay. destruct pw; [right | now left].
  split; [now apply Hinv | reflexivity].
Qed.

(** [priority_wait] is only ever set on a node of priority other than 0. *)
Lemma cycle_keeps_wait_inv (pw : bool) (n : nat) (v : bool) :
  (pw = true -> priority <> 0%nat) ->
  value (cycle None sh getfqdn mktime_strptime standby_list this_node priority pw n)
  = Ok v ->
  v = true -> priority <> 0%nat.
Proof.
  intros Hinv. rewrite cycle_run. cbv zeta.
  match goal with
  | |- context [value ?h] => destruct (value h) as [[i a]|e]
  end; [|discriminate].
  cbn [snd]. destruct a.
  - unfold value. cbn [snd]. intros H. injection H as <-. exact Hinv.
  - destruct (pw || (priority =? 0)%nat) eqn:Ec; unfold value; cbn [snd];
      intros H; injection H as <-; [discriminate|].
    intros _. apply orb_false_iff in Ec. destruct Ec as [_ Ec].
    now apply Nat.eqb_neq in Ec.
Qed.

Lemma loop_from_sleeps_well (fuel : nat) :
  forall pw n,
    (pw = true -> priority <> 0%nat) ->
    Forall (is_loop_sleep priority)
      (trace (loop_from None sh getfqdn mktime_strptime standby_list this_node priority
                fuel pw n)).
Proof.
  induction fuel as [|fuel IH]; intros pw n Hinv; cbn [loop_from].
  - constructor.
  - pose proof (cycle_sleeps_well pw n Hinv) as Hc.
    pose proof (cycle_keeps_wait_inv pw n) as Hv.
    unfold bind.
    destruct (cycle None sh getfqdn mktime_strptime standby_list this_node priority pw n)
      as [[t1 n1] [v|e]]; unfold trace, value in *; cbn [fst snd] in *;
      [|exact Hc].
    specialize (IH v n1 (Hv v Hinv eq_refl)).
    destruct (loop_from None sh getfqdn mktime_strptime standby_list this_node priority
                fuel v n1) as [[t2 n2] r].
    cbn [fst]. apply Forall_app. now split.
Qed.

(** X10.  However long [main_loop] runs and whatever the shell answers,
    every sleep is one heartbeat, or, on a node of priority other than
    0, the wait [PRI_WAIT_SEC * priority]: the node of priority 0 only
    ever sleeps the heartbeat, and no turn starts without a sleep of at
    least [HEARTBEAT_SEC]. *)
Theorem main_loop_sleeps (env_port : option string) (fuel n : nat) :
  Forall (is_loop_sleep priority)
    (trace (main_loop env_port sh getfqdn mktime_strptime standby_list this_node
              priority fuel n)).
Proof.
  unfold main_loop. destruct env_port as [port|].
  - destruct fuel as [|fuel]; [constructor|].
    rewrite loop_from_port_set. repeat constructor.
  - apply loop_from_sleeps_well. discriminate.
Qed.

Lemma check_hosts_all_down (l : list string) :
  (forall k host, status (sh k (Ping host)) <> 0) ->
  forall a n, exists t n1,
    check_hosts None sh getfqdn mktime_strptime this_node l (false, a) n
    = (t, n1, Ok (false, a))
    /\ forallb is_ping t = true
    /\ active_count t = 0%nat.
Proof.
  intros Hdown. induction l as [|host rest IH]; intros a n; cbn [check_hosts].
  - now exists [], n.
  - destruct (String.eqb_spec host this_node) as [->|Hne].
    + destruct (IH a n) as (t & n1 & E & Hp & Hc).
      exists t, n1. split; [|now split].
      rewrite (bind_Ok _ _ _ _ _ _ (check_host_self _ _ _ _ _ _)), E. reflexivity.
    + destruct (IH a (S n)) as (t & n1 & E & Hp & Hc).
      exists (EvRun (Ping host) (sh n (Ping host)) :: t), n1.
      pose proof (Hdown n host) as Hd. apply Z.eqb_neq in Hd.
      split; [|split].
      * rewrite (bind_Ok _ _ _ _ _ _
                   (check_host_inactive sh getfqdn mktime_strptime this_node
                      host a n Hne)).
        rewrite Hd, orb_false_r, E. reflexivity.
      * exact Hp.
      * rewrite active_count_cons. cbn [is_ping_ok]. now rewrite Hd.
Qed.

Lemma cycle_all_down (pw : bool) (n : nat) :
  (forall k host, status (sh k (Ping host)) <> 0) ->
  active_count
    (trace (cycle None sh getfqdn mktime_strptime standby_list this_node priority pw n))
  = 0%nat.
Proof.
  intros Hdown. rewrite cycle_count.
  pose proof (Hdown n "localhost") as Hd. apply Z.eqb_neq in Hd. rewrite Hd.
  destruct (check_hosts_all_down standby_list Hdown false (S n))
    as (t & n1 & E & _ & Hc).
  now rewrite E.
Qed.

(** X11.  With [TEGU_PORT] not set: while no tegu answers the probe,
    the node of priority 0 activates its tegu in its first turn, after one heartbeat; a node of
    any other priority sets [priority_wait] in its first turn and
    activates its tegu in the second, after one heartbeat and
    [PRI_WAIT_SEC * priority] seconds, with nothing but probes before. *)
Theorem main_loop_takes_over (n : nat) :
  (forall k host, status (sh k (Ping host)) <> 0) ->
  (priority = 0%nat ->
   exists polls n1,
     forallb is_ping polls = true
     /\ main_loop None sh getfqdn mktime_strptime standby_list this_node priority 1 n
        = (EvSleep HEARTBEAT_SEC
             :: polls ++ [EvLog "no running tegu found, starting here";
                          EvRun (Activate EmptyString) (sh n1 (Activate EmptyString))],
           S n1, Ok false))
  /\ (priority <> 0%nat ->
      exists polls1 polls2 n2,
        forallb is_ping polls1 = true
        /\ forallb is_ping polls2 = true
        /\ main_loop None sh getfqdn mktime_strptime standby_list this_node priority 2 n
           = (EvSleep HEARTBEAT_SEC
                :: polls1
                ++ EvSleep (PRI_WAIT_SEC * Z.of_nat priority)
                :: polls2
                ++ [EvLog "no running tegu found, starting here";
                    EvRun (Activate EmptyString) (sh n2 (Activate EmptyString))],
              S n2, Ok false)).
Proof.
  intros Hdown. unfold main_loop. split.
  - intros Hp.
    destruct (cycle_none_active_run sh getfqdn mktime_strptime this_node standby_list
                priority false n (cycle_all_down false n Hdown))
      as (polls & n1 & Hpolls & E).
    exists polls, n1. split; [exact Hpolls|].
    apply Nat.eqb_eq in Hp. rewrite Hp in E. cbn [orb] in E.
    cbn [loop_from]. rewrite (bind_Ok _ _ _ _ _ _ E).
    unfold trace, value, cycle_delay. simpl. now rewrite app_nil_r.
  - intros Hp. apply Nat.eqb_neq in Hp.
    destruct (cycle_none_active_run sh getfqdn mktime_strptime this_node standby_list
                priority false n (cycle_all_down false n Hdown))
      as (polls1 & n1 & Hpolls1 & E1).
    destruct (cycle_none_active_run sh getfqdn mktime_strptime this_node standby_list
                priority true n1 (cycle_all_down true n1 Hdown))
      as (polls2 & n2 & Hpolls2 & E2).
    exists polls1, polls2, n2. split; [exact Hpolls1|]. split; [exact Hpolls2|].
    rewrite Hp in E1. cbn [orb] in E1, E2.
    cbn [loop_from].
    rewrite (bind_Ok _ _ _ _ _ _ E1).
    rewrite (bind_Ok _ _ _ _ _ _ E2).
    unfold trace, value, cycle_delay. simpl. rewrite app_nil_r. reflexivity.
Qed.

End Turns2.

Lemma main_loop_takes_over_witness :
  exists polls1 polls2 n2,
    forallb is_ping polls1 = true
    /\ forallb is_ping polls2 = true
    /\ main_loop None Examples.sh_down "hostC" Examples.no_time ["hostA"; "hostB"] "hostC"
         2 2 0%nat
       = (EvSleep HEARTBEAT_SEC
            :: polls1
            ++ EvSleep (PRI_WAIT_SEC * Z.of_nat 2)
            :: polls2
            ++ [EvLog "no running tegu found, starting here";
                EvRun (Activate EmptyString)
                  (Examples.sh_down n2 (Activate EmptyString))],
          S n2, Ok false).
Proof.
  apply (proj2 (main_loop_takes_over Examples.sh_down "hostC" Examples.no_time "hostC"
                  ["hostA"; "hostB"] 2 0%nat
                  (fun k host => ltac:(discriminate)))).
  discriminate.
Defined.

(** ** The comparison across a cluster *)

Section ComparatorOrder.



Lemma lex_lt_trans (a b : string) :
  lex_lt a b -> forall c, lex_lt b c -> lex_lt a c.
Proof.
  induction 1 as [c0 s | c1 c2 s1 s2 Hlt | c0 s1 s2 H IH]; intros c Hbc.
  - inversion Hbc; subst; constructor.
  - inversion Hbc as [ | ? c3 ? s3 Hlt' | ? ? s3 Ht ]; subst.
    + apply lex_lt_head. lia.
    + now apply lex_lt_head.
  - inversion Hbc as [ | ? c3 ? s3 Hlt' | ? ? s3 Ht ]; subst.
    + now apply lex_lt_head.
    + apply lex_lt_tail. now apply IH.
Qed.

(** X12.  The decisions taken pairwise in a cluster are consistent: if
    node A finds that B should be active and node B finds that C should
    be active, then node A finds that C should be active (with the
    skews [tA - tB], [tB - tC] and [tA - tC] of the three clocks). *)
Theorem remote_is_newer_transitive (A B C : string) (tsA tsB tsC tA tB tC : Z) :
  remote_is_newer tsB (tA - tB) tsA B A = true ->
  remote_is_newer tsC (tB - tC) tsB C B = true ->
  remote_is_newer tsC (tA - tC) tsA C A = true.
Proof.
  unfold remote_is_newer.
  rewrite !orb_true_iff, !andb_true_iff, !Z.gtb_gt, !Z.eqb_eq, !string_ltb_lex.
  intros [H1 | [H1 L1]] [H2 | [H2 L2]].
  - left. lia.
  - left. lia.
  - left. lia.
  - right. split; [lia|]. exact (lex_lt_trans _ _ L2 _ L1).
Qed.


End ComparatorOrder.

Lemma remote_is_newer_transitive_witness :
  remote_is_newer 1300 (50 - 70) 1000 "hostC" "hostA" = true.
Proof.
  apply (remote_is_newer_transitive "hostA" "hostB" "hostC" 1000 1200 1300 50 80 70);
    reflexivity.
Defined.


(** ** The commands that probe, start and stop *)

Section Wrappers.

Variable sh : nat -> command -> outcome.

(** X14.  [activate_tegu] and [deactivate_tegu] never raise: each runs
    its one command and answers whether it exited with status 0.
    [get_checkpoint] does the same and warns when the answer is
    [False].  [is_active] does the same when [TEGU_PORT] is not set in
    the environment; when it is set, [is_active] raises [TypeError]
    while it formats the port, before its [try], and runs nothing. *)
Theorem shell_wrappers_absorb_failure (env_port : option string) (host : string)
    (n : nat) :
  is_active env_port sh host n
  = match env_port with
    | None =>
        ([EvRun (Ping host) (sh n (Ping host))], S n,
         Ok (status (sh n (Ping host)) =? 0))
    | Some _ => ([], n, Exn Py.TypeError)
    end
  /\ activate_tegu sh host n
     = ([EvRun (Activate host) (sh n (Activate host))], S n,
        Ok (status (sh n (Activate host)) =? 0))
  /\ deactivate_tegu sh host n
     = ([EvRun (Deactivate host) (sh n (Deactivate host))], S n,
        Ok (status (sh n (Deactivate host)) =? 0))
  /\ get_checkpoint sh host n
     = (EvRun (Sync host) (sh n (Sync host))
          :: (if status (sh n (Sync host)) =? 0 then []
              else [EvLog ("WRN: Could not sync chkpts from " ++ host)]),
        S n, Ok (status (sh n (Sync host)) =? 0)).
Proof.
  repeat split.
  - destruct env_port as [port|]; [reflexivity | apply is_active_run].
  - apply activate_tegu_run.
  - apply deactivate_tegu_run.
  - apply get_checkpoint_run.
Qed.

End Wrappers.

(** ** Who is deactivated *)

Section Deactivations.

Variable sh : nat -> command -> outcome.
Variable getfqdn : string.
Variable mktime_strptime : string -> option Z.
Variable this_node : string.

Lemma answered_app (host : string) (t1 t2 : list event) :
  answered host (t1 ++ t2) = answered host t1 || answered host t2.
Proof. unfold answered. apply existsb_app. Qed.

Lemma deactivation_seen_mono (local : bool) (t1 t t2 : list event) (e : event) :
  deactivation_seen local t e -> deactivation_seen local (t1 ++ t ++ t2) e.
Proof.
  destruct e as [ | |[] o]; simpl; trivial.
  intros [Hl [H|H]]; (split; [exact Hl|]); [now left | right].
  rewrite !answered_app, H. now rewrite orb_true_r.
Qed.

(** What a turn for a peer that answered an active node emits after
    the probe: nothing aimed at any other host. *)
Lemma check_host_targets (host : string) (st : bool * bool) (n : nat) :
  Forall (deactivation_seen (fst st)
            (trace (check_host None sh getfqdn mktime_strptime this_node host st n)))
    (trace (check_host None sh getfqdn mktime_strptime this_node host st n)).
Proof.
  unfold check_host. destruct st as [i a]. cbn [fst].
  destruct (String.eqb host this_node); [constructor|].
  rewrite (bind_Ok _ _ _ _ _ _ (is_active_run sh host n)).
  unfold trace at 1 3. cbn [fst].
  set (ok := status (sh n (Ping host)) =? 0).
  match goal with
  | |- context [trace (?m (S n))] =>
      assert (Hm : emits (fun e => match e with
                                   | EvRun (Deactivate h) _ =>
                                       i && ok
                                       && (String.eqb h EmptyString || String.eqb h host)
                                   | _ => true
                                   end) m);
      [| generalize (Hm (S n)); generalize (trace (m (S n))) ]
  end.
  { destruct (i && ok) eqn:Eio; [|repeat emits_step].
    unfold deactivate_tegu, logit.
    apply emits_bind; [| intros; apply emits_ret].
    apply emits_bind; [apply emits_emit; reflexivity | intros _].
    apply emits_bind.
    - apply (emits_weaken is_read_only); [|apply should_be_active_read_only].
      intros [ | |[]]; unfold is_read_only; simpl; congruence.
    - intros d. destruct d;
        (apply emits_bind; [apply emits_emit; reflexivity | intros _]);
        (apply emits_bind; [| intros; apply emits_ret]);
        apply emits_try_except; try apply emits_ret;
        (apply emits_bind; [| intros; apply emits_ret]);
        apply emits_check_call; intros o; simpl;
        rewrite ?String.eqb_refl, ?orb_true_r; reflexivity. }
  intros t Ht. constructor; [exact I|].
  apply Forall_forall. intros e Hin.
  rewrite forallb_forall in Ht. specialize (Ht e Hin).
  destruct e as [ | |[] o]; simpl; trivial.
  apply andb_true_iff in Ht. destruct Ht as [Hio Hh].
  apply andb_true_iff in Hio. destruct Hio as [Hi Hok].
  split; [exact Hi|].
  apply orb_true_iff in Hh. destruct Hh as [Hh|Hh]; apply String.eqb_eq in Hh.
  - now left.
  - right. subst host0. unfold answered. simpl.
    fold ok. now rewrite String.eqb_refl, Hok.
Qed.

Lemma check_host_keeps_inactive (host : string) (a : bool) (n n1 : nat)
    (t : list event) (st' : bool * bool) :
  check_host None sh getfqdn mktime_strptime this_node host (false, a) n = (t, n1, Ok st') ->
  fst st' = false.
Proof.
  unfold check_host. destruct (String.eqb host this_node).
  - intros H. now injection H as _ _ <-.
  - unfold bind at 1. rewrite is_active_run. cbn [andb].
    unfold bind, ret. simpl. intros H. now injection H as _ _ <-.
Qed.

Lemma check_hosts_targets (l : list string) :
  forall st n,
    Forall (deactivation_seen (fst st)
              (trace (check_hosts None sh getfqdn mktime_strptime this_node l st n)))
      (trace (check_hosts None sh getfqdn mktime_strptime this_node l st n)).
Proof.
  induction l as [|host rest IH]; intros st n; cbn [check_hosts].
  - constructor.
  - pose proof (check_host_targets host st n) as Hh.
    unfold bind.
    destruct (check_host None sh getfqdn mktime_strptime this_node host st n)
      as [[t1 n1] [st1|e]] eqn:E1; unfold trace in *; cbn [fst] in *.
    + specialize (IH st1 n1).
      destruct (check_hosts None sh getfqdn mktime_strptime this_node rest st1 n1)
        as [[t2 n2] r]. cbn [fst] in *.
      apply Forall_app. split.
      * eapply Forall_impl; [|exact Hh]. intros e He.
        apply (deactivation_seen_mono _ [] t1 t2). exact He.
      * eapply Forall_impl; [|exact IH]. intros e He.
        apply (deactivation_seen_mono _ t1 t2 []) in He.
        rewrite app_nil_r in He.
        destruct e as [ | |[] o]; simpl in *; trivial.
        destruct He as [Hl Ht]. split; [|exact Ht].
        destruct st as [[] a]; [reflexivity|].
        apply check_host_keeps_inactive in E1. cbn [fst]. congruence.
    + eapply Forall_impl; [|exact Hh]. intros e0 He.
      apply (deactivation_seen_mono _ [] t1 []) in He.
      now rewrite app_nil_r in He.
Qed.

(** X16.  In a turn of the loop every deactivate command is run on a
    node whose own tegu answered the probe of that turn, and is aimed
    at the local node or at a peer that answered a probe of that turn:
    nothing is deactivated unseen. *)
Theorem cycle_deactivates_seen (env_port : option string) (standby_list : list string)
    (priority : nat) (pw : bool) (n : nat) :
  Forall (deactivation_seen (status (sh n (Ping "localhost")) =? 0)
            (trace (cycle env_port sh getfqdn mktime_strptime standby_list this_node
                      priority pw n)))
    (trace (cycle env_port sh getfqdn mktime_strptime standby_list this_node priority
              pw n)).
Proof.
  destruct env_port as [port|];
    [rewrite cycle_port_set; unfold trace; cbn [fst]; repeat constructor |].
  rewrite cycle_run. cbv zeta.
  pose proof (check_hosts_targets standby_list
                (status (sh n (Ping "localhost")) =? 0,
                 status (sh n (Ping "localhost")) =? 0) (S n)) as Hh.
  cbn [fst] in Hh.
  destruct (check_hosts None sh getfqdn mktime_strptime this_node standby_list
              (status (sh n (Ping "localhost")) =? 0,
               status (sh n (Ping "localhost")) =? 0) (S n))
    as [[t n1] r]; unfold trace, value in *; cbn [fst snd] in *.
  assert (Hhead : forall tail,
             Forall (deactivation_seen (status (sh n (Ping "localhost")) =? 0)
                       (EvSleep (cycle_delay priority pw)
                          :: EvRun (Ping "localhost") (sh n (Ping "localhost"))
                          :: t ++ tail))
               (EvSleep (cycle_delay priority pw)
                  :: EvRun (Ping "localhost") (sh n (Ping "localhost")) :: t)).
  { intros tail. constructor; [exact I|]. constructor; [exact I|].
    eapply Forall_impl; [|exact Hh]. intros e He.
    apply (deactivation_seen_mono _
             [EvSleep (cycle_delay priority pw);
              EvRun (Ping "localhost") (sh n (Ping "localhost"))] t tail).
    exact He. }
  destruct r as [[i a]|e].
  - cbn [snd]. destruct a; [| destruct (pw || (priority =? 0)%nat)]; cbn [fst].
    + specialize (Hhead []). now rewrite app_nil_r in Hhead.
    + change (EvSleep (cycle_delay priority pw)
                :: EvRun (Ping "localhost") (sh n (Ping "localhost")) :: t)
        with ([EvSleep (cycle_delay priority pw);
               EvRun (Ping "localhost") (sh n (Ping "localhost"))] ++ t).
      rewrite <- app_assoc. cbn [app].
      change (EvSleep (cycle_delay priority pw)
                :: EvRun (Ping "localhost") (sh n (Ping "localhost"))
                :: t ++ [EvLog "no running tegu found, starting here";
                         EvRun (Activate EmptyString)
                           (sh n1 (Activate EmptyString))])
        with ((EvSleep (cycle_delay priority pw)
                 :: EvRun (Ping "localhost") (sh n (Ping "localhost")) :: t)
              ++ [EvLog "no running tegu found, starting here";
                  EvRun (Activate EmptyString) (sh n1 (Activate EmptyString))])
        at 2.
      apply Forall_app. split; [apply Hhead|].
      repeat constructor.
    + specialize (Hhead []). now rewrite app_nil_r in Hhead.
  - cbn [fst]. specialize (Hhead []). now rewrite app_nil_r in Hhead.
Qed.

End Deactivations.

(** ** How much a turn runs *)

Section Work.

Variable sh : nat -> command -> outcome.
Variable getfqdn : string.
Variable mktime_strptime : string -> option Z.
Variable this_node : string.

Lemma runs_weaken {A : Type} (k k' : nat) (m : M A) :
  (k <= k')%nat -> runs_at_most k m -> runs_at_most k' m.
Proof. intros Hk Hm n. specialize (Hm n). lia. Qed.

Lemma is_active_runs_once host : runs_at_most 1 (is_active None sh host).
Proof. intros n. rewrite is_active_run. simpl. lia. Qed.

Lemma deactivate_tegu_runs_once host : runs_at_most 1 (deactivate_tegu sh host).
Proof. intros n. rewrite deactivate_tegu_run. simpl. lia. Qed.

Lemma activate_tegu_runs_once host : runs_at_most 1 (activate_tegu sh host).
Proof. intros n. rewrite activate_tegu_run. simpl. lia. Qed.

Lemma check_host_runs host st :
  runs_at_most 8 (check_host None sh getfqdn mktime_strptime this_node host st).
Proof.
  unfold check_host, logit. destruct st as [i a].
  destruct (String.eqb host this_node); [apply runs_ret|].
  apply (runs_bind 1); [apply is_active_runs_once | intros ok; simpl Nat.sub | lia].
  apply (runs_bind 7); [| intros; apply runs_ret | lia].
  destruct (i && ok); [|apply runs_ret].
  apply (runs_bind 0); [apply runs_emit | intros _; simpl Nat.sub | lia].
  apply (runs_bind 6);
    [apply should_be_active_runs | intros d; simpl Nat.sub | lia].
  destruct d;
    (apply (runs_bind 0); [apply runs_emit | intros _; simpl Nat.sub | lia]);
    (apply (runs_bind 1);
     [apply deactivate_tegu_runs_once | intros; apply runs_ret | lia]).
Qed.

Lemma check_hosts_runs (l : list string) :
  forall st,
    runs_at_most (8 * List.length l)
      (check_hosts None sh getfqdn mktime_strptime this_node l st).
Proof.
  induction l as [|host rest IH]; intros st; cbn [check_hosts].
  - apply runs_ret.
  - apply (runs_bind 8); [apply check_host_runs | | simpl List.length; lia].
    intros st'. eapply runs_weaken; [|apply IH]. simpl List.length. lia.
Qed.

(** X17.  With [TEGU_PORT] not set, a turn of the loop runs at least
    one and at most [2 + 8 * len(standby_list)] shell commands, whatever
    they answer; with [TEGU_PORT] set it runs none. *)
Theorem cycle_runs (env_port : option string) (standby_list : list string)
    (priority : nat) (pw : bool) (n : nat) :
  match env_port with
  | None =>
      (n < snd (fst (cycle env_port sh getfqdn mktime_strptime standby_list this_node
                       priority pw n))
       <= n + (2 + 8 * List.length standby_list))%nat
  | Some _ =>
      snd (fst (cycle env_port sh getfqdn mktime_strptime standby_list this_node
                  priority pw n)) = n
  end.
Proof.
  destruct env_port as [port|]; [now rewrite cycle_port_set |].
  rewrite cycle_run. cbv zeta.
  pose proof (check_hosts_runs standby_list
                (status (sh n (Ping "localhost")) =? 0,
                 status (sh n (Ping "localhost")) =? 0) (S n)) as Hh.
  destruct (check_hosts None sh getfqdn mktime_strptime this_node standby_list
              (status (sh n (Ping "localhost")) =? 0,
               status (sh n (Ping "localhost")) =? 0) (S n))
    as [[t n1] [[i a]|e]]; unfold value; cbn [fst snd] in *.
  - destruct a; [| destruct (pw || (priority =? 0)%nat)]; cbn [fst snd]; lia.
  - lia.
Qed.

End Work.

(** ** The exit status *)

Section Exit.

Variable sh : nat -> command -> outcome.
Variable getfqdn : string.
Variable mktime_strptime : string -> option Z.

Lemma main_startup_listed (lines : list string) (n : nat) :
  In getfqdn (map Py.strip lines) ->
  exists peers priority,
    main_startup getfqdn lines n
    = ([EvLog "tegu_ha v1.0 started"], n, Ok (peers, getfqdn, priority)).
Proof.
  intros Hin.
  destruct (index_remove_first _ _ Hin) as (pre & post & _ & _ & Hi & Hr).
  exists (pre ++ post), (List.length pre).
  unfold main_startup, bind, logit, emit. simpl. now rewrite Hi, Hr.
Qed.

Lemma main_startup_unlisted (lines : list string) (n : nat) :
  ~ In getfqdn (map Py.strip lines) ->
  value (main_startup getfqdn lines n) = Exn (Py.SystemExit 1).
Proof.
  intros Hnin. unfold main_startup, bind, crit, logit, emit. simpl.
  now rewrite (index_absent _ _ Hnin).
Qed.

(** X18.  [main] ends with an exit status only through the start-up
    check: it exits, with status 1, exactly when no line of the standby
    file is the name of the local node; once the loop runs, nothing
    exits. *)
Theorem main_exits_iff_unlisted (env_port : option string) (lines : list string)
    (fuel n : nat) (code : Z) :
  value (main env_port sh getfqdn mktime_strptime lines fuel n)
  = Exn (Py.SystemExit code)
  <-> code = 1 /\ ~ In getfqdn (map Py.strip lines).
Proof.
  unfold main.
  destruct (in_dec string_dec getfqdn (map Py.strip lines)) as [Hin|Hnin].
  - destruct (main_startup_listed lines n Hin) as (peers & priority & E).
    rewrite (bind_Ok _ _ _ _ _ _ E). unfold value at 1. cbn [snd].
    split.
    + intros H. unfold main_loop in H.
      apply (loop_from_raises_only sh getfqdn mktime_strptime env_port) in H.
      destruct env_port; discriminate.
    + intros [_ Hn]. contradiction.
  - pose proof (main_startup_unlisted lines n Hnin) as E.
    unfold bind.
    destruct (main_startup getfqdn lines n) as [[t n1] r].
    unfold value in *. cbn [snd] in *. subst r.
    split.
    + intros H. injection H as <-. now split.
    + intros [-> _]. reflexivity.
Qed.

End Exit.

Lemma main_exits_iff_unlisted_witness :
  value (main None Examples.sh_remote_newer "hostD" Examples.two_times
           ["hostA"; "hostB"; "hostC"] 3 0%nat)
  = Exn (Py.SystemExit 1).
Proof.
  apply (proj2 (main_exits_iff_unlisted Examples.sh_remote_newer "hostD"
                  Examples.two_times None ["hostA"; "hostB"; "hostC"] 3 0%nat 1)).
  split; [reflexivity|].
  simpl. intros [H|[H|[H|[]]]]; discriminate.
Defined.

(** ** A turn in which no node answers *)

Section Silence.

Variable sh : nat -> command -> outcome.
Variable getfqdn : string.
Variable mktime_strptime : string -> option Z.
Variable this_node : string.
Variable standby_list : list string.
Variable priority : nat.

(** X19.  With [TEGU_PORT] not set.  The probes of a turn are those of
    localhost and of every entry of the standby list other than the
    local node, in list order, one shell invocation each from the first
    of the turn on.  When none of them answers, the turn is its sleep
    and these probes, followed, if [priority_wait] is set or the
    priority is 0, by the log line and the activate command, with
    [priority_wait] cleared; otherwise nothing more is run and
    [priority_wait] is set.  And an activate command is issued in a turn
    exactly when none of these probes answers and [priority_wait] is
    set or the priority is 0. *)
Theorem cycle_no_answer (pw : bool) (n : nat) :
  let polls := probe_events sh n ("localhost" :: peers_of this_node standby_list) in
  let n1 := S (n + List.length (peers_of this_node standby_list)) in
  (existsb is_ping_ok polls = false ->
   cycle None sh getfqdn mktime_strptime standby_list this_node priority pw n
   = if pw || (priority =? 0)%nat then
       (EvSleep (cycle_delay priority pw)
          :: polls ++ [EvLog "no running tegu found, starting here";
                       EvRun (Activate EmptyString) (sh n1 (Activate EmptyString))],
        S n1, Ok false)
     else (EvSleep (cycle_delay priority pw) :: polls, n1, Ok true))
  /\ (existsb is_activation
        (trace (cycle None sh getfqdn mktime_strptime standby_list this_node priority
                  pw n))
      = true
      <-> existsb is_ping_ok polls = false /\ pw || (priority =? 0)%nat = true).
Proof.
  cbv zeta.
  assert (Hrun : existsb is_ping_ok
                   (probe_events sh n ("localhost" :: peers_of this_node standby_list))
                 = false ->
                 cycle None sh getfqdn mktime_strptime standby_list this_node priority
                   pw n
                 = if pw || (priority =? 0)%nat then
                     (EvSleep (cycle_delay priority pw)
                        :: probe_events sh n
                             ("localhost" :: peers_of this_node standby_list)
                        ++ [EvLog "no running tegu found, starting here";
                            EvRun (Activate EmptyString)
                              (sh (S (n + List.length (peers_of this_node standby_list)))
                                 (Activate EmptyString))],
                      S (S (n + List.length (peers_of this_node standby_list))),
                      Ok false)
                   else (EvSleep (cycle_delay priority pw)
                           :: probe_events sh n
                                ("localhost" :: peers_of this_node standby_list),
                         S (n + List.length (peers_of this_node standby_list)),
                         Ok true)).
  { intros Hnone.
    assert (Hdown : status (sh n (Ping "localhost")) <> 0).
    { cbn [probe_events existsb is_ping_ok] in Hnone.
      apply orb_false_iff in Hnone. destruct Hnone as [Hl _].
      now apply Z.eqb_neq. }
    rewrite (cycle_local_down sh getfqdn mktime_strptime this_node standby_list
               priority pw n Hdown).
    cbv zeta. now rewrite Hnone. }
  split; [exact Hrun|]. split.
  - intros Hact.
    destruct (Z.eqb_spec (status (sh n (Ping "localhost"))) 0) as [Hup|Hdown].
    + exfalso.
      apply cycle_activation_iff in Hact. destruct Hact as [H0 _].
      rewrite cycle_count in H0. apply Z.eqb_eq in Hup. rewrite Hup in H0. lia.
    + rewrite (cycle_local_down sh getfqdn mktime_strptime this_node standby_list
                 priority pw n Hdown) in Hact.
      cbv zeta in Hact.
      destruct (existsb is_ping_ok
                  (probe_events sh n ("localhost" :: peers_of this_node standby_list)))
        eqn:Ep.
      * exfalso. unfold trace in Hact. cbn [fst existsb is_activation orb] in Hact.
        rewrite (pings_have_no_other is_activation) in Hact; [discriminate | |].
        -- intros [ | |[]]; simpl; congruence.
        -- clear. generalize n.
           induction ("localhost" :: peers_of this_node standby_list) as [|h r IH];
             intros k; [reflexivity | simpl; apply IH].
      * split; [reflexivity|].
        destruct (pw || (priority =? 0)%nat); [reflexivity|].
        exfalso. unfold trace in Hact. cbn [fst existsb is_activation orb] in Hact.
        rewrite (pings_have_no_other is_activation) in Hact; [discriminate | |].
        -- intros [ | |[]]; simpl; congruence.
        -- clear. generalize n.
           induction ("localhost" :: peers_of this_node standby_list) as [|h r IH];
             intros k; [reflexivity | simpl; apply IH].
  - intros [Hnone Hc]. rewrite (Hrun Hnone), Hc.
    unfold trace. cbn [fst existsb is_activation orb].
    rewrite existsb_app. simpl. apply orb_true_r.
Qed.

End Silence.

Lemma cycle_no_answer_witness :
  cycle None Examples.sh_down "hostC" Examples.no_time ["hostA"; "hostB"; "hostC"]
    "hostC" 2 true 0%nat
  = ([EvSleep (PRI_WAIT_SEC * 2);
      EvRun (Ping "localhost") Examples.failed;
      EvRun (Ping "hostA") Examples.failed;
      EvRun (Ping "hostB") Examples.failed;
      EvLog "no running tegu found, starting here";
      EvRun (Activate EmptyString) Examples.failed],
     4%nat, Ok false).
Proof.
  apply (proj1 (cycle_no_answer Examples.sh_down "hostC" Examples.no_time "hostC"
                  ["hostA"; "hostB"; "hostC"] 2 true 0%nat)).
  reflexivity.
Defined.
